(** * QML-for-btag: the training and evaluation pipeline

    A shallow embedding of [my_model_mps.py] (the MPS model: metric
    functions, [Train_Step], [Test_Step], [Batch_and_Shuffle],
    [Train_Model], [Test_Model], [Plot_ROC], [Run_Model]) and of [test.py]
    ([split], the training and evaluation loops of [QuantumModel], and the
    sweep over the number of layers).

    Conventions of the embedding:
    - Python exceptions are values of [exn]; code that can raise returns a
      [result]; code that also touches the interpreter's state (the global
      NumPy generator, what was printed, saved or stepped so far) lives in
      the state-and-exception monad [M].
    - Floating-point numbers are exact rationals ([Q]); the one special
      float the pipeline itself manufactures, the NaN of an empty mean, is
      the constructor [NaN] of [num].  Rounding, overflow and underflow
      are not modelled, so the statements below are about what is computed
      from what, about bounds and about exceptions, not about the last
      bits of a result.
    - PennyLane, JAX's differentiation and optimizer, and scikit-learn are
      libraries outside the repository: they are parameters of the
      sections that use them.  NumPy's [split], [column_stack] and
      [shuffle] are modelled on lists of rows, errors included. *)

From Stdlib Require Import QArith Lqa String.
From stdpp Require Import base list gmap strings pretty.

Local Open Scope nat_scope.
Set Warnings "-abstract-large-number".

(** ** Exceptions and the two monads *)

Inductive exn : Type :=
| ZeroDivisionError
| ValueError
| TypeError
| IndexError
| UnboundLocalError (name : string)
| NameError (name : string).

Inductive result (A : Type) : Type :=
| Ok (a : A)
| Raise (e : exn).
Arguments Ok {A} a.
Arguments Raise {A} e.

Definition is_Ok {A} (r : result A) : bool :=
  match r with Ok _ => true | Raise _ => false end.

Definition rbind {A B} (r : result A) (k : A -> result B) : result B :=
  match r with
  | Ok a => k a
  | Raise e => Raise e
  end.

(** A computation over an interpreter state [S]: the state is kept when an
    exception propagates, as what was printed or saved before a traceback
    stays printed or saved. *)
Definition M (S A : Type) : Type := S -> result A * S.

Definition ret {S A} (a : A) : M S A := fun s => (Ok a, s).

Definition raise {S A} (e : exn) : M S A := fun s => (Raise e, s).

Definition bind {S A B} (c : M S A) (k : A -> M S B) : M S B :=
  fun s => match c s with
           | (Ok a, s') => k a s'
           | (Raise e, s') => (Raise e, s')
           end.

Definition lift {S A} (r : result A) : M S A := fun s => (r, s).

Declare Scope py_scope.
Delimit Scope py_scope with py.
Notation "x <- c ;; k" := (bind c (fun x => k))
  (at level 100, c at next level, right associativity) : py_scope.
Notation "c ;; k" := (bind c (fun _ => k))
  (at level 100, right associativity) : py_scope.
Notation "x <~ r ;; k" := (rbind r (fun x => k))
  (at level 100, r at next level, right associativity) : py_scope.
Local Open Scope py_scope.

(** [for a in l: fr = body(fr, a)], the loop-carried variables in [fr]. *)
Fixpoint foldM {S A B} (l : list A) (fr : B) (body : B -> A -> M S B) : M S B :=
  match l with
  | [] => ret fr
  | a :: l' => fr' <- body fr a ;; foldM l' fr' body
  end.

Definition range (n : nat) : list nat := seq 0 n.

(** ** Configuration: the constants at the top of the script *)

Record Config : Type := {
  SEED : nat;
  TRAIN_SIZE : nat;
  TEST_SIZE : nat;
  N_QUBITS : nat;
  N_PARAMS_B : nat;
  LR : Q;
  N_EPOCHS : nat;
  BATCH_SIZE : nat
}.

Definition constants : Config := {|
  SEED := 0;
  TRAIN_SIZE := 10000;
  TEST_SIZE := 5000;
  N_QUBITS := 16;
  N_PARAMS_B := 3;
  LR := 1 # 100;
  N_EPOCHS := 3000;
  BATCH_SIZE := 200
|}.

(** ** NumPy on lists of rows *)

Module np.

(** [int(n / d)] on two non-negative Python ints: true division raises on
    a zero divisor, and below 2^53 truncating the quotient is the floor. *)
Definition int_div (n d : nat) : result nat :=
  match d with
  | 0 => Raise ZeroDivisionError
  | _ => Ok (n / d)
  end.

(** [np.column_stack([x, y])] for a 2-D [x] and a 1-D [y]: the rows of
    [x], each extended by the matching entry of [y]; the row counts must
    agree. *)
Definition stacked {A} (x : list (list A)) (y : list A) : list (list A) :=
  zip_with (fun r t => r ++ [t]) x y.

Definition column_stack {A} (x : list (list A)) (y : list A)
  : result (list (list A)) :=
  if decide (length x = length y) then Ok (stacked x y) else Raise ValueError.

(** [data[:, 0:n]] and [data[:, -1]]. *)
Definition columns_upto {A} (n : nat) (data : list (list A)) : list (list A) :=
  take n <$> data.

Definition last_column {A} (d : A) (data : list (list A)) : list A :=
  (fun r => default d (last r)) <$> data.

(** [sections] consecutive pieces of [size] rows. *)
Fixpoint pieces {A} (sections size : nat) (ary : list A) : list (list A) :=
  match sections with
  | 0 => []
  | S s => take size ary :: pieces s size (drop size ary)
  end.

(** [np.split(ary, sections)] with an integer [sections]: the test
    [N % sections] divides by zero for zero sections, a remainder is the
    "array split does not result in an equal division" error, and
    otherwise the array is cut in [sections] equal pieces. *)
Definition split {A} (ary : list A) (sections : nat) : result (list (list A)) :=
  match sections with
  | 0 => Raise ZeroDivisionError
  | _ => if decide (length ary mod sections = 0)
         then Ok (pieces sections (length ary / sections) ary)
         else Raise ValueError
  end.

(** The global generator behind [np.random], as far as the shuffle sees
    it: the tape of the values its bounded draws come from, one cell per
    accepted draw, and a read position.  How many raw outputs of the
    generator a bounded draw costs (NumPy masks an output and draws again
    while it is too large) is not modelled, and nothing below depends on
    it.  The script never seeds the generator, so every tape is a possible
    run. *)
Record RandomState : Type := { tape : nat -> nat; pos : nat }.

(** A draw from [0..max], both ends included. *)
Definition random_interval (g : RandomState) (max : nat) : nat * RandomState :=
  (tape g (pos g) mod S max, {| tape := tape g; pos := S (pos g) |}).

(** Exchange of rows [i] and [j]. *)
Definition swap {A} (i j : nat) (l : list A) : list A :=
  match l !! i, l !! j with
  | Some a, Some b => <[i:=b]> (<[j:=a]> l)
  | _, _ => l
  end.

(** [np.random.shuffle]'s loop [for i in reversed(range(1, n))]: draw
    [j] in [0..i] and exchange rows [i] and [j]. *)
Fixpoint shuffle_from {A} (i : nat) (g : RandomState) (l : list A)
  : list A * RandomState :=
  match i with
  | 0 => (l, g)
  | S i' => let '(j, g') := random_interval g i in
            shuffle_from i' g' (swap i j l)
  end.

Definition shuffle {A} (l : list A) : M RandomState (list A) :=
  fun g => let '(l', g') := shuffle_from (length l - 1) g l in (Ok l', g').

End np.

(** ** Batching and shuffling *)

(** [Batch_and_Shuffle(x, y)]. *)
Definition Batch_and_Shuffle (cfg : Config) (x : list (list Q)) (y : list Q)
  : M np.RandomState (list (list (list Q)) * list (list Q) * nat) :=
  z <- lift (np.int_div (length x) (BATCH_SIZE cfg)) ;;
  data <- lift (np.column_stack x y) ;;
  data <- np.shuffle data ;;
  fs <- lift (np.split (np.columns_upto (N_QUBITS cfg) data) z) ;;
  ts <- lift (np.split (np.last_column 0%Q data) z) ;;
  ret (fs, ts, z).

(** ** Scalars and [jax.numpy] on 1-D arrays *)

(** A float: a rational, or the NaN that the mean of an empty array is. *)
Inductive num : Type :=
| Num (q : Q)
| NaN.

Module jnp.

Definition sum (a : list Q) : Q := foldr Qplus 0%Q a.

(** [jnp.mean(a)]: the sum over the size; 0/0 for an empty array. *)
Definition mean (a : list Q) : num :=
  match a with
  | [] => NaN
  | _ :: _ => Num (sum a / inject_Z (Z.of_nat (length a)))
  end.

(** [jnp.sign]: -1, 0 or +1. *)
Definition sign (q : Q) : Q :=
  match (q ?= 0)%Q with
  | Lt => (-1)%Q
  | Eq => 0%Q
  | Gt => 1%Q
  end.

(** An elementwise binary operation on two 1-D arrays with broadcasting:
    equal lengths pair up, an array of one element is stretched, any
    other pair of shapes is JAX's incompatible-shapes [TypeError]. *)
Definition elementwise {C} (op : Q -> Q -> C) (a b : list Q) : result (list C) :=
  if decide (length a = length b) then Ok (zip_with op a b)
  else match a, b with
       | [a0], _ => Ok (op a0 <$> b)
       | _, [b0] => Ok ((fun ai => op ai b0) <$> a)
       | _, _ => Raise TypeError
       end.

(** A boolean array read as numbers, as [mean] does. *)
Definition of_bool (b : bool) : Q := if b then 1%Q else 0%Q.

End jnp.

(** ** The model, its metrics and the training step *)

(** What [adam(LR)] returns. *)
Record Optimizer (Params OptState : Type) : Type := {
  opt_init : Params -> OptState;
  opt_update : nat -> Params -> OptState -> OptState;
  get_params : OptState -> Params
}.
Arguments opt_init {Params OptState} o _.
Arguments opt_update {Params OptState} o _ _ _.
Arguments get_params {Params OptState} o _.

Section Model.

(** The libraries: a PennyLane device and the QNode built on it (one
    sample in, one expectation value out), JAX's reverse-mode gradient
    of a scalar function of the parameters, JAX's keyed uniform sampler
    (times pi) and the Adam optimizer of [jax.example_libraries]. *)
Context {Params OptState Device : Type}.
Variable qml_device : nat -> nat -> Device.
Variable qnode : Device -> nat -> nat -> list Q -> Params -> Q.
Variable jax_grad : (Params -> result num) -> Params -> Params.
Variable jax_random_uniform_pi : nat -> nat * nat -> Params.
Variable adam : Q -> Optimizer Params OptState.

Variable cfg : Config.

(** [device = qml.device(..., wires=N_QUBITS, prng_key=PRNGKey(SEED))]. *)
Definition device : Device := qml_device (N_QUBITS cfg) (SEED cfg).

(** [Circuit(x, w)]: the QNode mapped over the rows of [x] ([jax.vmap]
    with [in_axes=[0, None]]), the weights shared. *)
Definition Circuit (x : list (list Q)) (w : Params) : list Q :=
  (fun xi => qnode device (N_QUBITS cfg) (N_PARAMS_B cfg) xi w) <$> x.

(** [Loss(w, x, y)]. *)
Definition Loss (w : Params) (x : list (list Q)) (y : list Q) : result num :=
  let pred := Circuit x w in
  d <~ jnp.elementwise Qminus pred y ;;
  Ok (jnp.mean ((fun e => e ^ 2)%Q <$> d)).

(** [Accuracy(w, x, y)]. *)
Definition Accuracy (w : Params) (x : list (list Q)) (y : list Q) : result num :=
  let pred := Circuit x w in
  hit <~ jnp.elementwise Qeq_bool (jnp.sign <$> pred) y ;;
  Ok (jnp.mean (jnp.of_bool <$> hit)).

(** [weights], [opt_init, opt_update, get_params = adam(LR)] and the
    module-level [opt_state]. *)
Definition weights : Params :=
  jax_random_uniform_pi (SEED cfg) (N_QUBITS cfg - 1, N_PARAMS_B cfg).

Definition optimizer : Optimizer Params OptState := adam (LR cfg).

Definition opt_state : OptState := opt_init optimizer weights.

(** [jax.value_and_grad(f, argnums=0)(w, ...)]. *)
Definition value_and_grad (f : Params -> result num) (w : Params)
  : result (num * Params) :=
  v <~ f w ;; Ok (v, jax_grad f w).

(** [Train_Step(stepid, opt_state, train_f, train_t)]. *)
Definition Train_Step (stepid : nat) (opt_state : OptState)
    (train_f : list (list Q)) (train_t : list Q)
  : result (num * num * OptState) :=
  let current_w := get_params optimizer opt_state in
  vg <~ value_and_grad (fun w => Loss w train_f train_t) current_w ;;
  let '(loss_value, grads) := vg in
  acc_value <~ Accuracy current_w train_f train_t ;;
  let opt_state := opt_update optimizer stepid grads opt_state in
  Ok (loss_value, acc_value, opt_state).

End Model.

(** ** The interpreter state of a run *)

(** What a run does that can be seen afterwards, in order: lines printed,
    progress lines (the values interpolated in the f-string, before they
    are rounded for display), arrays saved, calls of the jitted step that
    returned, and stores into the metric arrays. *)
Inductive event (Params : Type) : Type :=
| Printed (line : string)
| Progress (epoch : nat) (loss acc_percent : num)
| Saved (file : string) (w : Params)
| Stepped (stepid : nat)
| Stored (index : nat) (loss acc : num).
Arguments Printed {Params} line.
Arguments Progress {Params} epoch loss acc_percent.
Arguments Saved {Params} file w.
Arguments Stepped {Params} stepid.
Arguments Stored {Params} index loss acc.

Record World (Params : Type) : Type := {
  np_random : np.RandomState;
  trace : list (event Params)
}.
Arguments np_random {Params} w.
Arguments trace {Params} w.

Definition emit {Params} (e : event Params) : M (World Params) unit :=
  fun w => (Ok tt, {| np_random := np_random w; trace := trace w ++ [e] |}).

(** A computation on the global generator, run in the world. *)
Definition with_np_random {Params A} (c : M np.RandomState A) : M (World Params) A :=
  fun w => let '(r, g) := c (np_random w) in
           (r, {| np_random := g; trace := trace w |}).

(** ** Indexing and name lookup *)

Module py.

Local Open Scope Z_scope.

(** The position an integer index denotes in a sequence of [n] items:
    negative indices count from the end. *)
Definition position (n : nat) (i : Z) : result nat :=
  let i' := if i <? 0 then i + Z.of_nat n else i in
  if (0 <=? i') && (i' <? Z.of_nat n) then Ok (Z.to_nat i')
  else Raise IndexError.

(** [a[i]] and [a[i] = v] on a list or a 1-D array. *)
Definition getitem {A} (a : list A) (i : Z) : result A :=
  p <~ position (length a) i ;;
  match a !! p with
  | Some v => Ok v
  | None => Raise IndexError
  end.

Definition setitem {A} (a : list A) (i : Z) (v : A) : result (list A) :=
  p <~ position (length a) i ;; Ok (<[p:=v]> a).

(** [x * 100] on a float. *)
Definition times (k : Q) (x : num) : num :=
  match x with
  | Num q => Num (q * k)
  | NaN => NaN
  end.

(** The names bound at module level of [my_model_mps.py] (imports,
    constants, functions and variables), with the built-ins the script
    uses. *)
Definition module_names : gset string :=
  list_to_set
    ["np"; "pd"; "os"; "qml"; "plt"; "ld_full"; "ld_muon"; "partial"; "jax";
     "adam"; "sklearn"; "roc_curve"; "roc_auc_score";
     "SEED"; "TRAIN_SIZE"; "TEST_SIZE"; "N_QUBITS"; "N_PARAMS_B"; "LR";
     "N_EPOCHS"; "BATCH_SIZE"; "device"; "Block"; "Circuit"; "Loss";
     "Accuracy"; "weights"; "opt_init"; "opt_update"; "get_params";
     "opt_state"; "Train_Step"; "Test_Step"; "Batch_and_Shuffle";
     "Train_Model"; "Test_Model"; "Plot_ROC"; "Plot_Loss_and_Acc";
     "Run_Model"; "int"; "len"; "print"; "range"; "str"; "input"]%string.

(** The names [Train_Model] assigns somewhere in its body (parameters,
    plain assignments, loop variables, unpacking targets): these, and
    only these, are its local variables, in the whole body. *)
Definition Train_Model_locals : gset string :=
  list_to_set
    ["x"; "y"; "z"; "loss_data"; "acc_data"; "step"; "i"; "train_f";
     "train_t"; "chunks"; "j"; "opt_state"; "file_weights"]%string.

(** Reading the name [name] inside a function whose local names are
    [locals]: a local name reads its slot, which is empty until the
    first assignment has run; any other name is looked up at module
    level.  [slot] is the slot's content and [global] the module-level
    value, for a name that has one. *)
Definition load {S A} (locals : gset string) (name : string)
    (slot global : option A) : M S A :=
  if decide (name ∈ locals) then
    match slot with
    | Some v => ret v
    | None => raise (UnboundLocalError name)
    end
  else
    match global with
    | Some v => if decide (name ∈ module_names) then ret v
                else raise (NameError name)
    | None => raise (NameError name)
    end.

End py.

(** ** The training loop *)

Definition tab : string := String (Ascii.ascii_of_nat 9) EmptyString.

Section Training.

Context {Params OptState Device : Type}.
Variable qml_device : nat -> nat -> Device.
Variable qnode : Device -> nat -> nat -> list Q -> Params -> Q.
Variable jax_grad : (Params -> result num) -> Params -> Params.
Variable jax_random_uniform_pi : nat -> nat * nat -> Params.
Variable adam : Q -> Optimizer Params OptState.
Variable cfg : Config.

Local Abbreviation W := (World Params).

(** The local variables of [Train_Model] that the loops carry;
    [l_opt_state] is empty until line 106 has assigned it. *)
Record Frame : Type := {
  loss_data : list num;
  acc_data : list num;
  step : nat;
  l_opt_state : option OptState
}.

Definition load_opt_state (fr : Frame) : M W OptState :=
  py.load py.Train_Model_locals "opt_state" (l_opt_state fr)
    (Some (opt_state jax_random_uniform_pi adam cfg)).

(** Line 106: the call's arguments are read left to right, the jitted
    step runs, and its three results are stored left to right. *)
Definition train_batch (train_f : list (list (list Q))) (train_t : list (list Q))
    (fr : Frame) (j : nat) : M W Frame :=
  st <- load_opt_state fr ;;
  f <- lift (py.getitem train_f (Z.of_nat j)) ;;
  t <- lift (py.getitem train_t (Z.of_nat j)) ;;
  r <- lift (Train_Step qml_device qnode jax_grad adam cfg (step fr) st f t) ;;
  emit (Stepped (step fr)) ;;
  let '(loss_value, acc_value, st') := r in
  ld <- lift (py.setitem (loss_data fr) (Z.of_nat (step fr)) loss_value) ;;
  ad <- lift (py.setitem (acc_data fr) (Z.of_nat (step fr)) acc_value) ;;
  emit (Stored (step fr) loss_value acc_value) ;;
  ret {| loss_data := ld; acc_data := ad; step := step fr + 1;
         l_opt_state := Some st' |}.

(** Lines 109-111: every hundredth epoch, the progress line and the
    checkpoint.  The f-string reads [i+1], then [loss_data[sgtep-1]],
    then [acc_data[step-1]*100]. *)
Definition report (fr : Frame) (i : nat) : M W unit :=
  if decide ((i + 1) mod 100 = 0) then
    sgtep <- py.load py.Train_Model_locals "sgtep" None (@None Z) ;;
    l <- lift (py.getitem (loss_data fr) (sgtep - 1)%Z) ;;
    a <- lift (py.getitem (acc_data fr) (Z.of_nat (step fr) - 1)%Z) ;;
    emit (Progress (i + 1) l (py.times 100 a)) ;;
    st <- load_opt_state fr ;;
    emit (Saved ("mps_w/mps_weights_epcoh_" +:+ pretty (i + 1) +:+ ".npy")
                (get_params (optimizer adam cfg) st))
  else ret tt.

(** The body of [for i in range(N_EPOCHS)]. *)
Definition epoch (x : list (list Q)) (y : list Q) (fr : Frame) (i : nat)
  : M W Frame :=
  b <- with_np_random (Batch_and_Shuffle cfg x y) ;;
  let '(train_f, train_t, chunks) := b in
  fr <- foldM (range chunks) fr (train_batch train_f train_t) ;;
  report fr i ;;
  ret fr.

(** The two lines printed before the first epoch. *)
Definition header : list (event Params) :=
  [Printed "Training...";
   Printed ("Epoch" +:+ tab +:+ "Loss" +:+ tab +:+ "Accuracy")].

(** [Train_Model(x, y)]. *)
Definition Train_Model (x : list (list Q)) (y : list Q)
  : M W (OptState * list num * list num) :=
  z <- lift (np.int_div (length x) (BATCH_SIZE cfg)) ;;
  let fr := {| loss_data := replicate (N_EPOCHS cfg * z) (Num 0);
               acc_data := replicate (N_EPOCHS cfg * z) (Num 0);
               step := 0;
               l_opt_state := None |} in
  emit (Printed "Training...") ;;
  emit (Printed ("Epoch" +:+ tab +:+ "Loss" +:+ tab +:+ "Accuracy")) ;;
  fr <- foldM (range (N_EPOCHS cfg)) fr (epoch x y) ;;
  st <- load_opt_state fr ;;
  emit (Saved "mps_w/final_mps_weights.npy" (get_params (optimizer adam cfg) st)) ;;
  st <- load_opt_state fr ;;
  ret (st, loss_data fr, acc_data fr).

End Training.

(** The step indices passed to the jitted step, and the indices of the
    metric records stored, in the order of a trace. *)
Definition stepids {Params} (tr : list (event Params)) : list nat :=
  omap (fun ev => match ev with Stepped i => Some i | _ => None end) tr.

Definition records {Params} (tr : list (event Params)) : list nat :=
  omap (fun ev => match ev with Stored i _ _ => Some i | _ => None end) tr.

(** The epochs of the progress lines and the files of the checkpoints. *)
Definition progress_epochs {Params} (tr : list (event Params)) : list nat :=
  omap (fun ev => match ev with Progress i _ _ => Some i | _ => None end) tr.

Definition checkpoints {Params} (tr : list (event Params)) : list string :=
  omap (fun ev => match ev with Saved f _ => Some f | _ => None end) tr.

(** ** The ROC reporter *)

(** NumPy arrays of up to three dimensions, as [Plot_ROC] handles them. *)
Inductive ndarray : Type :=
| Array0 (v : Q)
| Array1 (a : list Q)
| Array2 (a : list (list Q))
| Array3 (a : list (list (list Q))).

Module nd.

(** [a.shape], for rectangular contents. *)
Definition shape (a : ndarray) : list nat :=
  match a with
  | Array0 _ => []
  | Array1 a => [length a]
  | Array2 a => [length a; length (default [] (head a))]
  | Array3 a => let r := default [] (head a) in
                [length a; length r; length (default [] (head r))]
  end.

(** [a.shape[k]]: a tuple index out of range is an [IndexError]. *)
Definition shape_at (a : ndarray) (k : nat) : result nat :=
  match shape a !! k with
  | Some n => Ok n
  | None => Raise IndexError
  end.

(** [a[i] = v] for a 1-D value [v]: a 0-dimensional array has no axis to
    index ("too many indices for array"); a 1-D array takes only one
    number per slot; a row or a matrix slot takes [v] when it fits (or
    stretches from one element). *)
Definition fits (n : nat) (v : list Q) : result (list Q) :=
  if decide (length v = n) then Ok v
  else match v with
       | [v0] => Ok (replicate n v0)
       | _ => Raise ValueError
       end.

Definition setitem (a : ndarray) (i : Z) (v : list Q) : result ndarray :=
  match a with
  | Array0 _ => Raise IndexError
  | Array1 a => p <~ py.position (length a) i ;;
                match v with
                | [v0] => Ok (Array1 (<[p:=v0]> a))
                | _ => Raise ValueError
                end
  | Array2 a => p <~ py.position (length a) i ;;
                r <~ fits (length (default [] (a !! p))) v ;;
                Ok (Array2 (<[p:=r]> a))
  | Array3 a => p <~ py.position (length a) i ;;
                let m := default [] (a !! p) in
                r <~ fits (length (default [] (head m))) v ;;
                Ok (Array3 (<[p:=replicate (length m) r]> a))
  end.

Definition ravel (a : ndarray) : list Q :=
  match a with
  | Array0 v => [v]
  | Array1 a => a
  | Array2 a => concat a
  | Array3 a => concat (concat a)
  end.

(** [np.reshape(a, (r, c))]. *)
Definition reshape2 (a : ndarray) (r c : nat) : result (list (list Q)) :=
  if decide (length (ravel a) = r * c) then Ok (np.pieces r c (ravel a))
  else Raise ValueError.

End nd.

(** [for a in l: acc = body(acc, a)] in code that only raises. *)
Fixpoint foldR {A B} (l : list A) (acc : B) (body : B -> A -> result B) : result B :=
  match l with
  | [] => Ok acc
  | a :: l' => acc' <~ body acc a ;; foldR l' acc' body
  end.

Section ROC.

Context {Params Device : Type}.
Variable qml_device : nat -> nat -> Device.
Variable qnode : Device -> nat -> nat -> list Q -> Params -> Q.
(** scikit-learn's [roc_curve] (FPR, TPR, thresholds) and [roc_auc_score]. *)
Variable roc_curve : list Q -> list (list Q) -> list Q * list Q * list Q.
Variable roc_auc_score : list Q -> list (list Q) -> Q.
Variable cfg : Config.

(** [Plot_ROC(w, x, y)] down to the curve and the area (lines 137-145);
    what follows reads the baseline file and draws. *)
Definition Plot_ROC (w : Params) (x : list (list Q)) (y : list Q)
  : result (list Q * list Q * list Q * list Q) :=
  depth <~ np.int_div (length x) (BATCH_SIZE cfg) ;;
  new_x <~ np.split x depth ;;
  let ps := Array0 (inject_Z (Z.of_nat (TEST_SIZE cfg))) in
  ps <~ foldR (range depth) ps (fun ps i =>
          xi <~ py.getitem new_x (Z.of_nat i) ;;
          nd.setitem ps (Z.of_nat i) (Circuit qml_device qnode cfg xi w)) ;;
  s0 <~ nd.shape_at ps 0 ;;
  s1 <~ nd.shape_at ps 1 ;;
  s2 <~ nd.shape_at ps 2 ;;
  predictions <~ nd.reshape2 ps (s0 * s1) s2 ;;
  let '(fpr, tpr, threshold) := roc_curve y predictions in
  let auc := roc_auc_score y predictions in
  let df_auc := replicate (length fpr) (1 * auc)%Q in
  Ok (fpr, tpr, threshold, df_auc).

End ROC.

(** ** [test.py]: the training loop of [QuantumModel] *)

Module test_py.

(** [jnp.average] of an array of floats. *)
Definition average (a : list num) : num :=
  match mapM (fun v => match v with Num q => Some q | NaN => None end) a with
  | Some qs => jnp.mean qs
  | None => NaN
  end.

(** [split(data, rows)]: [len(data) // rows] equal pieces. *)
Definition split {A} (data : list A) (rows : nat) : result (list (list A) * nat) :=
  depth <~ np.int_div (length data) rows ;;
  dataframes <~ np.split data depth ;;
  Ok (dataframes, depth).

Section QuantumModel.

Context {Params OptState Device : Type}.
Variable qml_device : nat -> nat -> Device.
Variable qnode : Device -> nat -> list Q -> Params -> Q.
Variable jax_grad : (Params -> result num) -> Params -> Params.
Variable adam : Q -> Optimizer Params OptState.
Variables (SEED N_QUBITS N_EPOCHS : nat) (LR : Q).

Definition circuit (x : list (list Q)) (w : Params) : list Q :=
  (fun xi => qnode (qml_device N_QUBITS SEED) N_QUBITS xi w) <$> x.

Definition loss_fn (w : Params) (x : list (list Q)) (y : list Q) : result num :=
  let pred := circuit x w in
  d <~ jnp.elementwise Qminus pred y ;;
  Ok (jnp.mean ((fun e => e ^ 2)%Q <$> d)).

Definition acc_fn (w : Params) (x : list (list Q)) (y : list Q) : result num :=
  let pred := circuit x w in
  hit <~ jnp.elementwise Qeq_bool (jnp.sign <$> pred) y ;;
  Ok (jnp.mean (jnp.of_bool <$> hit)).

Definition train_step (stepid : nat) (opt_state : OptState)
    (x : list (list Q)) (y : list Q) : result (num * num * OptState) :=
  let current_w := get_params (adam LR) opt_state in
  vg <~ value_and_grad jax_grad (fun w => loss_fn w x y) current_w ;;
  let '(loss_value, grads) := vg in
  acc_value <~ acc_fn current_w x y ;;
  let opt_state := opt_update (adam LR) stepid grads opt_state in
  Ok (loss_value, acc_value, opt_state).

(** The variables the training loop carries; [loss_value] and [acc_value]
    are unbound until a step has run. *)
Record Frame : Type := {
  train_loss_data : list num;
  train_acc_data : list num;
  opt_state : OptState;
  loss_value : option num;
  acc_value : option num;
  loss_temp : list num;
  acc_temp : list num
}.

Definition QuantumModel_locals : gset string :=
  list_to_set ["loss_value"; "acc_value"; "opt_state"; "i"; "j"]%string.

(** Lines 81-83, one batch. *)
Definition train_batch (train_dataframe : list (list (list Q)))
    (train_target_dataframe : list (list Q)) (i : nat) (fr : Frame) (j : nat)
  : M (World Params) Frame :=
  x <- lift (py.getitem train_dataframe (Z.of_nat j)) ;;
  y <- lift (py.getitem train_target_dataframe (Z.of_nat j)) ;;
  r <- lift (train_step i (opt_state fr) x y) ;;
  emit (Stepped i) ;;
  let '(l, a, st) := r in
  lt <- lift (py.setitem (loss_temp fr) (Z.of_nat j) l) ;;
  at_ <- lift (py.setitem (acc_temp fr) (Z.of_nat j) a) ;;
  ret {| train_loss_data := train_loss_data fr;
         train_acc_data := train_acc_data fr;
         opt_state := st; loss_value := Some l; acc_value := Some a;
         loss_temp := lt; acc_temp := at_ |}.

(** Lines 78-87, one epoch. *)
Definition epoch (chunks : nat) (train_dataframe : list (list (list Q)))
    (train_target_dataframe : list (list Q)) (fr : Frame) (i : nat)
  : M (World Params) Frame :=
  let fr := {| train_loss_data := train_loss_data fr;
               train_acc_data := train_acc_data fr;
               opt_state := opt_state fr;
               loss_value := loss_value fr; acc_value := acc_value fr;
               loss_temp := replicate chunks (Num 0);
               acc_temp := replicate chunks (Num 0) |} in
  fr <- foldM (range chunks) fr (train_batch train_dataframe train_target_dataframe i) ;;
  tl <- lift (py.setitem (train_loss_data fr) (Z.of_nat i) (average (loss_temp fr))) ;;
  ta <- lift (py.setitem (train_acc_data fr) (Z.of_nat i) (average (acc_temp fr))) ;;
  emit (Stored i (average (loss_temp fr)) (average (acc_temp fr))) ;;
  (if decide ((i + 1) mod 100 = 0) then
     l <- py.load QuantumModel_locals "loss_value" (loss_value fr) None ;;
     a <- py.load QuantumModel_locals "acc_value" (acc_value fr) None ;;
     emit (Progress (i + 1) l (py.times 100 a))
   else ret tt) ;;
  ret {| train_loss_data := tl; train_acc_data := ta;
         opt_state := opt_state fr;
         loss_value := loss_value fr; acc_value := acc_value fr;
         loss_temp := loss_temp fr; acc_temp := acc_temp fr |}.

(** Lines 71-88: the training part of [QuantumModel], from the state
    [opt_init(weights)]. *)
Definition training (chunks : nat) (train_dataframe : list (list (list Q)))
    (train_target_dataframe : list (list Q)) (weights : Params)
  : M (World Params) (OptState * list num * list num) :=
  let fr := {| train_loss_data := replicate N_EPOCHS (Num 0);
               train_acc_data := replicate N_EPOCHS (Num 0);
               opt_state := opt_init (adam LR) weights;
               loss_value := None; acc_value := None;
               loss_temp := []; acc_temp := [] |} in
  emit (Printed "Training Model....") ;;
  emit (Printed ("Epoch" +:+ tab +:+ "Loss" +:+ tab +:+ "Accuracy")) ;;
  fr <- foldM (range N_EPOCHS) fr (epoch chunks train_dataframe train_target_dataframe) ;;
  ret (opt_state fr, train_loss_data fr, train_acc_data fr).

End QuantumModel.

End test_py.

(** ** Sample inputs *)

(** [n] distinct feature rows of width 16 and [n] alternating labels. *)
Definition sample_rows (n : nat) : list (list Q) :=
  (fun i => replicate 16 (inject_Z (Z.of_nat i))) <$> seq 0 n.

Definition sample_labels (n : nat) : list Q :=
  (fun i => if Nat.even i then 1%Q else (-1)%Q) <$> seq 0 n.

Definition sample_tape : np.RandomState :=
  {| np.tape := fun k => 7 * k + 3; np.pos := 0 |}.

(** The constants of the script scaled down: 2 features, batches of 2. *)
Definition small : Config := {|
  SEED := 0;
  TRAIN_SIZE := 4;
  TEST_SIZE := 4;
  N_QUBITS := 2;
  N_PARAMS_B := 3;
  LR := 1 # 100;
  N_EPOCHS := 2;
  BATCH_SIZE := 2
|}.

Definition x4 : list (list Q) := [[1; 2]; [3; 4]; [5; 6]; [7; 8]]%Q.
Definition y4 : list Q := [1; -1; 1; -1]%Q.

(** ** The metrics as the specification words them *)

(** The sum of the squared differences, the mean squared error, the number
    of samples whose predicted sign is the label, and that number as a
    fraction of the batch. *)
Fixpoint squared_error (pred y : list Q) : Q :=
  match pred, y with
  | p :: pred', t :: y' => ((p - t) ^ 2 + squared_error pred' y')%Q
  | _, _ => 0%Q
  end.

Definition mean_squared_error (pred y : list Q) : Q :=
  (squared_error pred y / inject_Z (Z.of_nat (length y)))%Q.

Fixpoint hits (pred y : list Q) : nat :=
  match pred, y with
  | p :: pred', t :: y' =>
      (if Qeq_bool (jnp.sign p) t then 1 else 0) + hits pred' y'
  | _, _ => 0
  end.

Definition fraction_correct (pred y : list Q) : Q :=
  (inject_Z (Z.of_nat (hits pred y)) / inject_Z (Z.of_nat (length y)))%Q.

(** A predictor that answers +1 on every sample, and a plain
    gradient-descent stand-in for the optimizer, to run the model on. *)
Definition always_plus_one : unit -> nat -> nat -> list Q -> Q -> Q :=
  fun _ _ _ _ _ => 1%Q.

Definition descent (lr : Q) : Optimizer Q Q := {|
  opt_init := fun w => w;
  opt_update := fun _ g s => (s - lr * g)%Q;
  get_params := fun s => s
|}.

Definition always_plus_one_layers : unit -> nat -> list Q -> Q -> Q :=
  fun _ _ _ _ => 1%Q.

(** A fresh interpreter: nothing printed, saved or stepped yet. *)
Definition fresh : World Q := {| np_random := sample_tape; trace := [] |}.

(** ** Evaluation: [Test_Step] and [Test_Model] *)

(** [np.average] of an array of floats: a NaN entry makes it NaN. *)
Definition np_average (a : list num) : num :=
  match mapM (fun v => match v with Num q => Some q | NaN => None end) a with
  | Some qs => jnp.mean qs
  | None => NaN
  end.

Section Testing.

Context {Params Device : Type}.
Variable qml_device : nat -> nat -> Device.
Variable qnode : Device -> nat -> nat -> list Q -> Params -> Q.
Variable jax_grad : (Params -> result num) -> Params -> Params.
(** Python's [format(v, ".nf")] on a float, [n] digits after the point. *)
Variable format_float : nat -> num -> string.
Variable cfg : Config.

(** [Test_Step(current_w, test_f, test_t)]: the gradient is computed and
    dropped. *)
Definition Test_Step (current_w : Params) (test_f : list (list Q))
    (test_t : list Q) : result (num * num) :=
  vg <~ value_and_grad jax_grad
          (fun w => Loss qml_device qnode cfg w test_f test_t) current_w ;;
  let '(loss_value, grads) := vg in
  acc_value <~ Accuracy qml_device qnode cfg current_w test_f test_t ;;
  Ok (loss_value, acc_value).

(** Line 127, one batch: the two results go to slot [j] of the two
    arrays. *)
Definition test_batch (w : Params) (test_f : list (list (list Q)))
    (test_t : list (list Q)) (temp : list num * list num) (j : nat)
  : M (World Params) (list num * list num) :=
  f <- lift (py.getitem test_f (Z.of_nat j)) ;;
  t <- lift (py.getitem test_t (Z.of_nat j)) ;;
  r <- lift (Test_Step w f t) ;;
  loss_temp <- lift (py.setitem temp.1 (Z.of_nat j) r.1) ;;
  acc_temp <- lift (py.setitem temp.2 (Z.of_nat j) r.2) ;;
  ret (loss_temp, acc_temp).

(** The line [print(f"\t{loss_data:.3f}\t{acc_data*100:.2f}%")]. *)
Definition summary_line (loss_data acc_data : num) : string :=
  tab +:+ format_float 3 loss_data +:+ tab
      +:+ format_float 2 (py.times 100 acc_data) +:+ "%".

(** [Test_Model(w, x, y)]. *)
Definition Test_Model (w : Params) (x : list (list Q)) (y : list Q)
  : M (World Params) (num * num) :=
  emit (Printed "Testing...") ;;
  emit (Printed (tab +:+ "Loss" +:+ tab +:+ "Accuracy")) ;;
  b <- with_np_random (Batch_and_Shuffle cfg x y) ;;
  let '(test_f, test_t, chunks) := b in
  let loss_temp := replicate chunks (Num 0) in
  let acc_temp := replicate chunks (Num 0) in
  temp <- foldM (range chunks) (loss_temp, acc_temp) (test_batch w test_f test_t) ;;
  let loss_data := np_average temp.1 in
  let acc_data := np_average temp.2 in
  emit (Printed (summary_line loss_data acc_data)) ;;
  ret (loss_data, acc_data).

End Testing.

(** ** The script's entry point *)

Section Script.

Context {Params OptState Device : Type}.
Variable qml_device : nat -> nat -> Device.
Variable qnode : Device -> nat -> nat -> list Q -> Params -> Q.
Variable jax_grad : (Params -> result num) -> Params -> Params.
Variable jax_random_uniform_pi : nat -> nat * nat -> Params.
Variable adam : Q -> Optimizer Params OptState.
Variable roc_curve : list Q -> list (list Q) -> list Q * list Q * list Q.
Variable roc_auc_score : list Q -> list (list Q) -> Q.
Variable format_float : nat -> num -> string.

(** What [Run_Model] finds around it: the dataset loader [ld_full] of
    [dataset16], the names in the weights directory ([os.scandir]), what
    the user types at the prompt ([input]), the arrays on disk
    ([np.load]), and the drawing and writing of the reports (the rest of
    [Plot_ROC] after the area, [Plot_Loss_and_Acc], and the final data
    frame written as CSV).  Each may raise. *)
Variable ld_full :
  nat -> nat -> nat -> result (list (list Q) * list Q * list (list Q) * list Q).
Variable scandir : string -> result (list string).
Variable input : string -> result string.
Variable np_load : string -> result Params.
Variable roc_artifacts : list Q * list Q * list Q * list Q -> result unit.
Variable Plot_Loss_and_Acc : list Q -> list num -> list num -> result unit.
Variable to_csv : list Q -> list num -> list num -> num -> num -> result unit.

Variable cfg : Config.




End Script.

(** ** Runs that only print *)



(** Batches [0 .. n-1] of a partition exist and pair as many labels as
    rows. *)
Definition aligned_batches (n : nat) (frames : list (list (list Q)))
    (targets : list (list Q)) : Prop :=
  forall j, j < n ->
    exists x y, frames !! j = Some x /\ targets !! j = Some y /\
                length x = length y.

(** ** [test.py]: evaluation, the whole [QuantumModel], and the sweep *)

(** [a[i]] on a 0-dimensional array, which has no axis to index. *)
Definition getitem_0d (a : num) (i : Z) : result num := Raise IndexError.

Module test_py_rest.

Section QuantumModel.

Context {Params OptState Device : Type}.
Variable qml_device : nat -> nat -> Device.
Variable qnode : Device -> nat -> list Q -> Params -> Q.
Variable jax_grad : (Params -> result num) -> Params -> Params.
Variable adam : Q -> Optimizer Params OptState.
(** [jax.random.uniform(PRNGKey(seed), (layers, qubits, 3)) * pi]. *)
Variable jax_random_uniform_pi : nat -> nat * nat * nat -> Params.
Variable format_float : nat -> num -> string.
Variable ld_full :
  nat -> nat -> nat -> result (list (list Q) * list Q * list (list Q) * list Q).

Section one_model.

Variables (SEED TRAIN_SIZE TEST_SIZE N_QUBITS N_LAYERS : nat) (LR : Q)
  (N_EPOCHS : nat).

(** [test_step(stepid, opt_state, x, y)]. *)
Definition test_step (stepid : nat) (opt_state : OptState)
    (x : list (list Q)) (y : list Q) : result (num * num) :=
  let weights := get_params (adam LR) opt_state in
  vg <~ value_and_grad jax_grad
          (fun w => test_py.loss_fn qml_device qnode SEED N_QUBITS w x y)
          weights ;;
  let '(loss_value, grads) := vg in
  acc_value <~ test_py.acc_fn qml_device qnode SEED N_QUBITS weights x y ;;
  Ok (loss_value, acc_value).

(** The variables the evaluation loop carries. *)
Record TestFrame : Type := {
  loss_temp : list num;
  acc_temp : list num;
  loss_value : option num;
  acc_value : option num
}.

(** Lines 97-99, one batch; [i] is the loop variable the training loop
    left behind. *)
Definition test_batch (i : option nat) (final_state : OptState)
    (test_dataframe : list (list (list Q)))
    (test_target_dataframe : list (list Q)) (fr : TestFrame) (j : nat)
  : M (World Params) TestFrame :=
  i <- py.load test_py.QuantumModel_locals "i" i None ;;
  x <- lift (py.getitem test_dataframe (Z.of_nat j)) ;;
  y <- lift (py.getitem test_target_dataframe (Z.of_nat j)) ;;
  r <- lift (test_step i final_state x y) ;;
  lt <- lift (py.setitem (loss_temp fr) (Z.of_nat j) r.1) ;;
  at_ <- lift (py.setitem (acc_temp fr) (Z.of_nat j) r.2) ;;
  ret {| loss_temp := lt; acc_temp := at_;
         loss_value := Some r.1; acc_value := Some r.2 |}.

(** Lines 92-102.  [loss_value] and [acc_value] start as the training loop
    left them; that matters only when the loop below makes no iteration,
    and then the training loop, which runs over the same number of
    batches, has made none either and has left them unbound. *)
Definition testing (i : option nat) (final_state : OptState) (chunks : nat)
    (test_dataframe : list (list (list Q)))
    (test_target_dataframe : list (list Q)) : M (World Params) (num * num) :=
  emit (Printed "Testing Model....") ;;
  emit (Printed (tab +:+ "Loss" +:+ tab +:+ "Accuracy")) ;;
  let fr := {| loss_temp := replicate chunks (Num 0);
               acc_temp := replicate chunks (Num 0);
               loss_value := None; acc_value := None |} in
  fr <- foldM (range chunks) fr
          (test_batch i final_state test_dataframe test_target_dataframe) ;;
  let test_loss_data := test_py.average (loss_temp fr) in
  let test_acc_data := test_py.average (acc_temp fr) in
  l <- py.load test_py.QuantumModel_locals "loss_value" (loss_value fr) None ;;
  a <- py.load test_py.QuantumModel_locals "acc_value" (acc_value fr) None ;;
  emit (Printed (summary_line format_float l a)) ;;
  ret (test_loss_data, test_acc_data).

(** [jnp.linspace(0, n, num=n)]. *)
Definition linspace_0 (n : nat) : list Q :=
  (fun i => inject_Z (Z.of_nat i) * inject_Z (Z.of_nat n)
            / inject_Z (Z.of_nat (n - 1)))%Q <$> seq 0 n.

(** [QuantumModel(SEED, TRAIN_SIZE, TEST_SIZE, N_QUBITS, N_LAYERS, LR,
    N_EPOCHS)]. *)
Definition QuantumModel
  : M (World Params) (list num * list num * num * num * list Q) :=
  d <- lift (ld_full TRAIN_SIZE TEST_SIZE SEED) ;;
  let '(train_features, train_target, test_features, test_target) := d in
  let depth := 250 in
  s1 <- lift (test_py.split train_features depth) ;;
  s2 <- lift (test_py.split train_target depth) ;;
  s3 <- lift (test_py.split test_features depth) ;;
  s4 <- lift (test_py.split test_target depth) ;;
  let chunks := s4.2 in
  let weights := jax_random_uniform_pi SEED (N_LAYERS, N_QUBITS, 3) in
  let ep := linspace_0 N_EPOCHS in
  r <- test_py.training qml_device qnode jax_grad adam SEED N_QUBITS N_EPOCHS
         LR chunks s1.1 s2.1 weights ;;
  let '(final_state, train_loss_data, train_acc_data) := r in
  let i := match N_EPOCHS with 0 => None | S n => Some n end in
  t <- testing i final_state chunks s3.1 s4.1 ;;
  ret (train_loss_data, train_acc_data, t.1, t.2, ep).

End one_model.

(** Lines 106-120: the sweep over the number of layers, down to the end
    of its loop. *)
Definition layer_sweep : M (World Params) (list num * list num) :=
  let SEED := 0 in
  let TRAIN_SIZE := 2000 in
  let TEST_SIZE := 2000 in
  let N_QUBITS := 16 in
  let LR := (1 # 1000)%Q in
  let N_EPOCHS := 1000 in
  foldM (range 10) (replicate 10 (Num 0), replicate 10 (Num 0))
    (fun layers_data i =>
       r <- QuantumModel SEED TRAIN_SIZE TEST_SIZE N_QUBITS i LR N_EPOCHS ;;
       let '(train_ld, train_ad, test_ld, test_ad, ep) := r in
       train_layers_data <- lift (py.setitem layers_data.1 (Z.of_nat i)
                                    (test_py.average train_ad)) ;;
       last_test_ad <- lift (getitem_0d test_ad (-1)) ;;
       test_layers_data <- lift (py.setitem layers_data.2 (Z.of_nat i)
                                   last_test_ad) ;;
       ret (train_layers_data, test_layers_data)).

End QuantumModel.

End test_py_rest.

(** ** The metrics row by row *)

Section Rows.

Context {Params Device : Type}.
Variable qml_device : nat -> nat -> Device.
Variable qnode : Device -> nat -> nat -> list Q -> Params -> Q.
Variable cfg : Config.

(** On a stacked row [x_i ++ [y_i]], read as [Batch_and_Shuffle] reads it
    (features: the first [N_QUBITS] columns, label: the last column): the
    prediction, the squared error and the hit (1 or 0) of the model. *)
Definition row_prediction (w : Params) (r : list Q) : Q :=
  qnode (device qml_device cfg) (N_QUBITS cfg) (N_PARAMS_B cfg)
    (take (N_QUBITS cfg) r) w.

Definition row_error (w : Params) (r : list Q) : Q :=
  ((row_prediction w r - default 0 (last r)) ^ 2)%Q.

Definition row_hit (w : Params) (r : list Q) : Q :=
  jnp.of_bool (Qeq_bool (jnp.sign (row_prediction w r)) (default 0%Q (last r))).

End Rows.

(** ** Facts about the NumPy model *)

Section np_facts.
Context {A B : Type}.
Implicit Types (l : list A) (f : A -> B).

Lemma insert_head_Permutation l j a b :
  l !! j = Some b -> Permutation (b :: <[j:=a]> l) (a :: l).
Proof.
  revert j. induction l as [|c l IH]; intros [|j] Hj; simplify_eq/=.
  - apply perm_swap || reflexivity.
  - rewrite (perm_swap c b), (IH j Hj). apply perm_swap.
Qed.

Lemma swap_Permutation i j l : Permutation (np.swap i j l) l.
Proof.
  unfold np.swap.
  destruct (l !! i) as [a|] eqn:Hi; [|reflexivity].
  destruct (l !! j) as [b|] eqn:Hj; [|reflexivity].
  revert i j Hi Hj. induction l as [|c l IH]; intros [|i] [|j] Hi Hj;
    simplify_eq/=.
  - reflexivity.
  - by apply insert_head_Permutation.
  - symmetry. rewrite <- (insert_head_Permutation l i b a Hi) at 1.
    reflexivity.
  - constructor. by apply IH.
Qed.

Lemma swap_fmap f i j l : np.swap i j (f <$> l) = f <$> np.swap i j l.
Proof.
  unfold np.swap. rewrite !list_lookup_fmap.
  destruct (l !! i), (l !! j); simpl; try done.
  by rewrite !list_fmap_insert.
Qed.

Lemma shuffle_from_Permutation i g l :
  Permutation (np.shuffle_from i g l).1 l.
Proof.
  revert g l. induction i as [|i IH]; intros g l; simpl; [done|].
  rewrite IH. apply swap_Permutation.
Qed.

Lemma shuffle_from_fmap f i g l :
  np.shuffle_from i g (f <$> l)
  = (f <$> (np.shuffle_from i g l).1, (np.shuffle_from i g l).2).
Proof.
  revert g l. induction i as [|i IH]; intros g l; simpl; [done|].
  by rewrite swap_fmap, IH.
Qed.

Lemma pieces_length s k l : length (np.pieces s k l) = s.
Proof. revert l. induction s; intros; simpl; auto. Qed.

Lemma pieces_sizes s k l :
  s * k <= length l -> Forall (fun b => length b = k) (np.pieces s k l).
Proof.
  revert l. induction s as [|s IH]; intros l Hl; simpl; constructor.
  - rewrite length_take. lia.
  - apply IH. rewrite length_drop. lia.
Qed.

Lemma concat_pieces s k l : length l = s * k -> concat (np.pieces s k l) = l.
Proof.
  revert l. induction s as [|s IH]; intros l Hl; simpl.
  - by destruct l.
  - rewrite IH, take_drop; [done|]. rewrite length_drop. lia.
Qed.

Lemma pieces_fmap f s k l :
  np.pieces s k (f <$> l) = fmap (M:=list) f <$> np.pieces s k l.
Proof.
  revert l. induction s as [|s IH]; intros l; simpl; [done|].
  by rewrite <- fmap_take, <- fmap_drop, IH.
Qed.

Lemma split_Ok l s :
  s <> 0 -> length l mod s = 0 ->
  np.split l s = Ok (np.pieces s (length l / s) l).
Proof.
  intros Hs Hm. unfold np.split. destruct s; [done|].
  by rewrite decide_True.
Qed.

Lemma split_remainder l s :
  s <> 0 -> length l mod s <> 0 -> np.split l s = Raise ValueError.
Proof.
  intros Hs Hm. unfold np.split. destruct s; [done|].
  by rewrite decide_False.
Qed.

End np_facts.

Section row_facts.
Context {A : Type}.

Lemma fmap_lookup_seq (d : A) (l : list A) :
  (fun i => default d (l !! i)) <$> seq 0 (length l) = l.
Proof.
  apply list_eq. intros i. rewrite list_lookup_fmap.
  destruct (decide (i < length l)) as [Hi|Hi].
  - rewrite lookup_seq_lt by done. simpl.
    destruct (lookup_lt_is_Some_2 l i Hi) as [a Ha]. by rewrite Ha.
  - rewrite (lookup_ge_None_2 l) by lia.
    rewrite (lookup_ge_None_2 (seq _ _)); [done|]. rewrite length_seq. lia.
Qed.

Lemma pieces_Forall (P : A -> Prop) s k (l : list A) :
  Forall P l -> Forall (Forall P) (np.pieces s k l).
Proof.
  revert l. induction s as [|s IH]; intros l Hl; simpl; constructor.
  - by apply Forall_take.
  - by apply IH, Forall_drop.
Qed.

Lemma Forall2_fmap_nested {B} (P : A -> B -> Prop) (f : A -> B) (ll : list (list A)) :
  Forall (Forall (fun a => P a (f a))) ll ->
  Forall2 (Forall2 P) ll (fmap (M:=list) f <$> ll).
Proof.
  induction 1 as [|l ll Hl _ IH]; simpl; constructor; [|done].
  induction Hl; simpl; by constructor.
Qed.

Lemma lookup_stacked (x : list (list A)) (y : list A) i r t :
  x !! i = Some r -> y !! i = Some t -> np.stacked x y !! i = Some (r ++ [t]).
Proof.
  intros Hx Hy. unfold np.stacked. rewrite lookup_zip_with, Hx. simpl.
  by rewrite Hy.
Qed.

End row_facts.

(** ** Batching and shuffling: what one call returns *)

(** With a positive batch size and aligned inputs, the call gets as far as
    the two [np.split]s, on the rows as the generator has shuffled them. *)
Lemma Batch_and_Shuffle_run cfg x y g :
  BATCH_SIZE cfg <> 0 -> length x = length y ->
  Batch_and_Shuffle cfg x y g =
    let z := length x / BATCH_SIZE cfg in
    let sh := np.shuffle_from (length x - 1) g (np.stacked x y) in
    (fs <~ np.split (np.columns_upto (N_QUBITS cfg) sh.1) z ;;
     ts <~ np.split (np.last_column 0%Q sh.1) z ;;
     Ok (fs, ts, z), sh.2).
Proof.
  intros HB Hxy. unfold Batch_and_Shuffle, bind, lift, np.int_div.
  destruct (BATCH_SIZE cfg) as [|b] eqn:Eb; [done|].
  unfold np.column_stack. rewrite decide_True by done.
  unfold np.shuffle.
  replace (length (np.stacked x y)) with (length x)
    by (unfold np.stacked; rewrite length_zip_with; lia).
  cbn zeta. destruct (np.shuffle_from _ g _) as [data g'] eqn:Esh. simpl.
  destruct (np.split (np.columns_upto _ data) _); simpl; [|done].
  by destruct (np.split (np.last_column _ data) _).
Qed.

(** A call that returns was given aligned inputs and a positive batch
    size, found at least one batch, and cut the shuffled rows in [z]
    equal pieces. *)
Lemma Batch_and_Shuffle_Ok_inv cfg x y g fs ts z g' :
  Batch_and_Shuffle cfg x y g = (Ok (fs, ts, z), g') ->
  BATCH_SIZE cfg <> 0 /\ length x = length y /\
  z = length x / BATCH_SIZE cfg /\ z <> 0 /\ length x mod z = 0 /\
  let data := (np.shuffle_from (length x - 1) g (np.stacked x y)).1 in
  fs = np.pieces z (length x / z) (np.columns_upto (N_QUBITS cfg) data) /\
  ts = np.pieces z (length x / z) (np.last_column 0%Q data).
Proof.
  intros H.
  assert (HB : BATCH_SIZE cfg <> 0).
  { intros E. unfold Batch_and_Shuffle, bind, lift, np.int_div in H.
    by rewrite E in H. }
  assert (Hxy : length x = length y).
  { destruct (decide (length x = length y)) as [|Hn]; [done|].
    unfold Batch_and_Shuffle, bind, lift, np.int_div, np.column_stack in H.
    destruct (BATCH_SIZE cfg); [done|]. by rewrite decide_False in H. }
  rewrite Batch_and_Shuffle_run in H by done. cbn zeta in H.
  set (data := (np.shuffle_from _ g _).1) in *.
  assert (Hlen : length data = length x).
  { unfold data. rewrite (Permutation_length (shuffle_from_Permutation _ _ _)).
    unfold np.stacked. rewrite length_zip_with. lia. }
  assert (Hc : length (np.columns_upto (N_QUBITS cfg) data) = length x)
    by (unfold np.columns_upto; by rewrite length_fmap).
  assert (Hl : length (np.last_column 0%Q data) = length x)
    by (unfold np.last_column; by rewrite length_fmap).
  destruct (decide (length x / BATCH_SIZE cfg = 0)) as [Ez|Ez].
  { by rewrite Ez in H. }
  destruct (decide (length x mod (length x / BATCH_SIZE cfg) = 0)) as [Hm|Hm].
  2: { rewrite split_remainder in H by (try rewrite Hc; done). done. }
  rewrite !split_Ok in H by (try rewrite ?Hc, ?Hl; done).
  rewrite Hc, Hl in H. simpl in H.
  injection H as <- <- <- _. repeat split; done.
Qed.

(** Closed goals about sample inputs are settled by evaluation. *)
Ltac by_computation :=
  vm_compute; first [reflexivity | discriminate | lia].

(** C2 (as amended).  With [z = floor(N / batch_size)] on [N] aligned
    rows: when [z >= 1] divides [N], one call returns exactly [z] feature
    batches and [z] label batches of exactly [N / z] rows each, which is
    [batch_size] rows when [batch_size] divides [N], and the batches hold
    all [N] rows, none dropped; when [z >= 1] does not divide [N], the call
    raises [np.split]'s [ValueError]. *)
Theorem Batch_and_Shuffle_equal_division cfg x y g :
  BATCH_SIZE cfg <> 0 -> length x = length y ->
  let N := length x in
  let z := N / BATCH_SIZE cfg in
  (z <> 0 -> N mod z = 0 ->
   exists fs ts g',
     Batch_and_Shuffle cfg x y g = (Ok (fs, ts, z), g') /\
     length fs = z /\ length ts = z /\
     Forall (fun b => length b = N / z) fs /\
     Forall (fun b => length b = N / z) ts /\
     length (concat fs) = N /\
     (N mod BATCH_SIZE cfg = 0 -> N / z = BATCH_SIZE cfg)) /\
  (z <> 0 -> N mod z <> 0 ->
   (Batch_and_Shuffle cfg x y g).1 = Raise ValueError).
Proof.
  intros HB Hxy N z. rewrite Batch_and_Shuffle_run by done. cbn zeta.
  fold N z. set (data := (np.shuffle_from _ g _).1).
  assert (Hlen : length data = N).
  { unfold data. rewrite (Permutation_length (shuffle_from_Permutation _ _ _)).
    unfold np.stacked. rewrite length_zip_with. lia. }
  assert (Hc : length (np.columns_upto (N_QUBITS cfg) data) = N)
    by (unfold np.columns_upto; by rewrite length_fmap).
  assert (Hl : length (np.last_column 0%Q data) = N)
    by (unfold np.last_column; by rewrite length_fmap).
  split; intros Hz Hm.
  - rewrite !split_Ok by (try rewrite ?Hc, ?Hl; done). rewrite Hc, Hl. simpl.
    assert (HN : N = z * (N / z)).
    { pose proof (Nat.div_mod_eq N z). lia. }
    eexists _, _, _. split; [reflexivity|].
    rewrite !pieces_length. repeat split.
    + apply pieces_sizes. lia.
    + apply pieces_sizes. lia.
    + rewrite concat_pieces by lia. done.
    + intros HmB. unfold z in *.
      pose proof (Nat.div_mod_eq N (BATCH_SIZE cfg)) as HNB.
      rewrite HmB, Nat.add_0_r in HNB.
      assert (Hdiv : forall n b q, q <> 0 -> n = b * q -> n / q = b).
      { intros n b q Hq ->. by apply Nat.div_mul. }
      by apply Hdiv.
  - rewrite split_remainder by (try rewrite Hc; done). done.
Qed.

Lemma Batch_and_Shuffle_equal_division_witness :
  (exists fs ts g',
     Batch_and_Shuffle small x4 y4 sample_tape = (Ok (fs, ts, 2), g') /\
     length fs = 2 /\ length ts = 2 /\
     Forall (fun b => length b = 2) fs /\ Forall (fun b => length b = 2) ts /\
     length (concat fs) = 4) /\
  (Batch_and_Shuffle small (x4 ++ [[9; 9]%Q]) (y4 ++ [1%Q]) sample_tape).1
  = Raise ValueError.
Proof.
  split.
  - destruct (Batch_and_Shuffle_equal_division small x4 y4 sample_tape)
      as [H _]; [by_computation|by_computation|].
    destruct H as (fs & ts & g' & H & H1 & H2 & H3 & H4 & H5 & _);
      [by_computation|by_computation|].
    exists fs, ts, g'. repeat split; done.
  - destruct (Batch_and_Shuffle_equal_division small (x4 ++ [[9; 9]%Q])
                (y4 ++ [1%Q]) sample_tape) as [_ H];
      [by_computation|by_computation|].
    apply H; by_computation.
Defined.

(** C2 as the claim states it fails on the script's own batch size of 200:
    300 rows come back as one batch of 300 rows, not of 200, and 700 rows
    raise instead of coming back as three batches. *)
Lemma Batch_and_Shuffle_drops_no_remainder :
  (exists fs ts g',
     Batch_and_Shuffle constants (sample_rows 300) (sample_labels 300)
       sample_tape = (Ok (fs, ts, 1), g') /\
     length <$> fs = [300] /\
     ~ Forall (fun b => length b = BATCH_SIZE constants) fs) /\
  (Batch_and_Shuffle constants (sample_rows 700) (sample_labels 700)
     sample_tape).1 = Raise ValueError.
Proof.
  split; [|by_computation].
  eexists _, _, _. split; [vm_compute; reflexivity|].
  split; [by_computation|].
  intros Hb. apply Forall_cons in Hb as [Hb _]. revert Hb. by_computation.
Qed.

(** C3 (as amended).  When the batch size exceeds the number of aligned
    rows, [z] is 0 and the call does not return: [np.split] is asked for
    zero sections and raises a division by zero, after the rows have been
    stacked and shuffled.  Nothing is reported besides the exception. *)
Theorem Batch_and_Shuffle_batch_exceeds_data cfg x y g :
  length x = length y -> length x < BATCH_SIZE cfg ->
  Batch_and_Shuffle cfg x y g
  = (Raise ZeroDivisionError,
     (np.shuffle_from (length x - 1) g (np.stacked x y)).2).
Proof.
  intros Hxy HB. rewrite Batch_and_Shuffle_run by (done || lia). cbn zeta.
  by rewrite Nat.div_small.
Qed.

Lemma Batch_and_Shuffle_batch_exceeds_data_witness :
  (Batch_and_Shuffle small [[1; 2]%Q] [1%Q] sample_tape).1
  = Raise ZeroDivisionError.
Proof.
  rewrite (Batch_and_Shuffle_batch_exceeds_data small [[1; 2]%Q] [1%Q]
             sample_tape); [reflexivity|reflexivity|].
  by_computation.
Defined.

(** C3 as the claim states it fails: on 100 rows, fewer than the batch
    size of 200, the call returns no (empty) list of batches but raises. *)
Lemma Batch_and_Shuffle_no_empty_epoch :
  (Batch_and_Shuffle constants (sample_rows 100) (sample_labels 100)
     sample_tape).1 = Raise ZeroDivisionError /\
  ~ (exists g', Batch_and_Shuffle constants (sample_rows 100)
                  (sample_labels 100) sample_tape = (Ok ([], [], 0), g')).
Proof.
  assert (H : (Batch_and_Shuffle constants (sample_rows 100)
                 (sample_labels 100) sample_tape).1 = Raise ZeroDivisionError)
    by by_computation.
  split; [done|]. intros [g' E]. rewrite E in H. discriminate H.
Qed.

(** C7 (as amended).  Whenever a call returns, there is one arrangement
    [idx] of the row indices [0..N-1] into batches, shared by features and
    labels: the [k]-th row of the [b]-th feature batch is the input row
    [idx[b][k]] and the [k]-th entry of the [b]-th label batch is the label
    of that same input row (the feature rows having the width
    [N_QUBITS]); no index occurs twice, so no input row is in two batches;
    and the batches hold [N] rows in total, which is
    [batch_size * floor(N / batch_size)] when [batch_size] divides [N]. *)
Theorem Batch_and_Shuffle_joint_permutation cfg x y g fs ts z g' :
  Forall (fun r => length r = N_QUBITS cfg) x ->
  Batch_and_Shuffle cfg x y g = (Ok (fs, ts, z), g') ->
  exists idx : list (list nat),
    Forall2 (Forall2 (fun i r => x !! i = Some r)) idx fs /\
    Forall2 (Forall2 (fun i t => y !! i = Some t)) idx ts /\
    Permutation (concat idx) (seq 0 (length x)) /\
    NoDup (concat idx) /\
    length (concat fs) = length x /\
    (length x mod BATCH_SIZE cfg = 0 ->
     length (concat fs) = BATCH_SIZE cfg * (length x / BATCH_SIZE cfg)).
Proof.
  intros Hw H.
  apply Batch_and_Shuffle_Ok_inv in H
    as (HB & Hxy & Hz & Hz0 & Hm & Hfs & Hts).
  set (N := length x) in *. set (k := N / z) in *.
  set (st := np.stacked x y) in *.
  assert (Hst : length st = N).
  { unfold st, np.stacked. rewrite length_zip_with. lia. }
  set (rowf := fun i => default [] (st !! i)).
  set (sigma := (np.shuffle_from (N - 1) g (seq 0 N)).1).
  assert (Hdata : (np.shuffle_from (N - 1) g st).1 = rowf <$> sigma).
  { rewrite <- (fmap_lookup_seq [] st) at 1. rewrite Hst.
    by rewrite shuffle_from_fmap. }
  assert (Hperm : Permutation sigma (seq 0 N))
    by apply shuffle_from_Permutation.
  assert (Hsig : length sigma = z * k).
  { rewrite (Permutation_length Hperm), length_seq. unfold k.
    pose proof (Nat.div_mod_eq N z). lia. }
  assert (Hrows : Forall (fun i => exists r t,
              x !! i = Some r /\ y !! i = Some t /\ rowf i = r ++ [t]) sigma).
  { apply Forall_forall. intros i Hi. rewrite Hperm in Hi.
    apply elem_of_seq in Hi as [_ Hi]. simpl in Hi.
    destruct (lookup_lt_is_Some_2 x i) as [r Hr]; [done|].
    destruct (lookup_lt_is_Some_2 y i) as [t Ht]; [lia|].
    exists r, t. repeat split; try done.
    unfold rowf, st. by rewrite (lookup_stacked x y i r t). }
  cbn zeta in Hfs, Hts. rewrite Hdata in Hfs, Hts.
  unfold np.columns_upto in Hfs. unfold np.last_column in Hts.
  rewrite <- list_fmap_compose, pieces_fmap in Hfs.
  rewrite <- list_fmap_compose, pieces_fmap in Hts.
  exists (np.pieces z k sigma). subst fs ts. repeat split.
  - apply Forall2_fmap_nested, pieces_Forall.
    eapply Forall_impl; [exact Hrows|]. intros i (r & t & Hr & _ & Hrow).
    simpl. rewrite Hrow, take_app_length'; [done|].
    symmetry. by eapply (proj1 (Forall_lookup _ _) Hw).
  - apply Forall2_fmap_nested, pieces_Forall.
    eapply Forall_impl; [exact Hrows|]. intros i (r & t & _ & Ht & Hrow).
    simpl. by rewrite Hrow, last_snoc.
  - by rewrite concat_pieces.
  - rewrite concat_pieces by done. rewrite Hperm. apply NoDup_seq.
  - rewrite <- pieces_fmap, concat_pieces; rewrite length_fmap; [|done].
    by rewrite (Permutation_length Hperm), length_seq.
  - intros HmB.
    rewrite <- pieces_fmap, concat_pieces; rewrite length_fmap; [|done].
    rewrite (Permutation_length Hperm), length_seq.
    pose proof (Nat.div_mod_eq N (BATCH_SIZE cfg)). lia.
Qed.

Lemma Batch_and_Shuffle_joint_permutation_witness :
  exists idx : list (list nat),
    Forall2 (Forall2 (fun i r => x4 !! i = Some r)) idx
      [[[1; 2]; [5; 6]]; [[3; 4]; [7; 8]]]%Q /\
    Forall2 (Forall2 (fun i t => y4 !! i = Some t)) idx [[1; 1]; [-1; -1]]%Q /\
    Permutation (concat idx) (seq 0 4) /\
    NoDup (concat idx).
Proof.
  destruct (Batch_and_Shuffle_joint_permutation small x4 y4 sample_tape
              [[[1; 2]; [5; 6]]; [[3; 4]; [7; 8]]]%Q [[1; 1]; [-1; -1]]%Q 2
              {| np.tape := np.tape sample_tape; np.pos := 3 |})
    as (idx & H1 & H2 & H3 & H4 & _).
  - repeat constructor.
  - vm_compute. reflexivity.
  - exists idx. repeat split; done.
Defined.

(** C7 as the claim states it fails: 300 rows with the batch size of 200
    come back as 300 samples, not as 200 * floor(300 / 200) = 200. *)
Lemma Batch_and_Shuffle_total_is_N :
  exists fs ts z g',
    Batch_and_Shuffle constants (sample_rows 300) (sample_labels 300)
      sample_tape = (Ok (fs, ts, z), g') /\
    length (concat fs) = 300 /\
    length (concat fs) <>
      BATCH_SIZE constants * (length (sample_rows 300) / BATCH_SIZE constants).
Proof.
  eexists _, _, _, _. split; [vm_compute; reflexivity|].
  split; by_computation.
Qed.

(** ** The metric functions *)

Lemma elementwise_aligned {C} (op : Q -> Q -> C) a b :
  length a = length b -> jnp.elementwise op a b = Ok (zip_with op a b).
Proof. intros H. unfold jnp.elementwise. by rewrite decide_True. Qed.

Lemma sum_squares pred y :
  jnp.sum ((fun e => e ^ 2)%Q <$> zip_with Qminus pred y)
  = squared_error pred y.
Proof.
  revert y. induction pred as [|p pred IH]; intros [|t y]; simpl; try done.
  by rewrite IH.
Qed.

Lemma sum_hits pred y :
  (jnp.sum (jnp.of_bool <$> zip_with Qeq_bool (jnp.sign <$> pred) y)
   == inject_Z (Z.of_nat (hits pred y)))%Q.
Proof.
  revert y. induction pred as [|p pred IH]; intros [|t y]; simpl jnp.sum;
    try reflexivity.
  cbn [fmap list_fmap zip_with foldr hits]. fold (jnp.sum).
  change (foldr Qplus 0%Q ?l) with (jnp.sum l). rewrite IH.
  rewrite Nat2Z.inj_add, inject_Z_plus.
  by destruct (Qeq_bool (jnp.sign p) t).
Qed.

Lemma hits_le pred y : hits pred y <= length y.
Proof.
  revert y. induction pred as [|p pred IH]; intros [|t y]; simpl; try lia.
  specialize (IH y). destruct (Qeq_bool _ _); lia.
Qed.

Lemma squared_error_zero pred y :
  Forall (fun p => p == 1)%Q pred -> Forall (fun t => t == 1)%Q y ->
  (squared_error pred y == 0)%Q.
Proof.
  intros Hp. revert y. induction Hp as [|p pred Hp1 _ IH];
    intros y Hy; destruct Hy as [|t y Ht1 Hy]; simpl; try reflexivity.
  rewrite (IH y Hy), Hp1, Ht1. reflexivity.
Qed.

Lemma hits_all pred y :
  length pred = length y ->
  Forall (fun p => p == 1)%Q pred -> Forall (fun t => t == 1)%Q y ->
  hits pred y = length y.
Proof.
  intros Hlen Hp. revert y Hlen. induction Hp as [|p pred Hp1 _ IH];
    intros y Hlen Hy; destruct Hy as [|t y Ht1 Hy]; simpl in *; try done.
  rewrite (IH y) by (done || lia).
  assert (Hs : jnp.sign p = 1%Q).
  { unfold jnp.sign. rewrite Hp1. reflexivity. }
  rewrite Hs. replace (Qeq_bool 1 t) with true; [done|].
  symmetry. apply Qeq_bool_iff. by symmetry.
Qed.

Lemma mean_nonempty (a : list Q) :
  a <> [] -> jnp.mean a = Num (jnp.sum a / inject_Z (Z.of_nat (length a))).
Proof. by destruct a. Qed.

Lemma fraction_bounds (h n : nat) :
  h <= n -> 0 < n ->
  (0 <= inject_Z (Z.of_nat h) / inject_Z (Z.of_nat n) <= 1)%Q.
Proof.
  intros Hh Hn.
  assert (Hpos : (0 < inject_Z (Z.of_nat n))%Q).
  { change 0%Q with (inject_Z 0). rewrite <- Zlt_Qlt. lia. }
  split.
  - apply Qle_shift_div_l; [done|]. rewrite Qmult_0_l.
    change 0%Q with (inject_Z 0). rewrite <- Zle_Qle. lia.
  - apply Qle_shift_div_r; [done|]. rewrite Qmult_1_l.
    rewrite <- Zle_Qle. lia.
Qed.

Section Metrics.

Context {Params Device : Type}.
Variable qml_device : nat -> nat -> Device.
Variable qnode : Device -> nat -> nat -> list Q -> Params -> Q.
Variable cfg : Config.

(** C8.  On a non-empty batch with one label per row, [Accuracy] returns
    a number between 0 and 1, the fraction of the samples whose predicted
    sign equals the label, and [Loss] returns the mean squared error of
    the predictions; when every prediction is +1 and every label is +1,
    the loss is 0 and the accuracy is 1, whatever the parameters. *)
Theorem Loss_Accuracy_spec (w : Params) (x : list (list Q)) (y : list Q) :
  x <> [] -> length y = length x ->
  let pred := Circuit qml_device qnode cfg x w in
  exists a l : Q,
    Accuracy qml_device qnode cfg w x y = Ok (Num a) /\
    Loss qml_device qnode cfg w x y = Ok (Num l) /\
    (0 <= a <= 1)%Q /\
    (a == fraction_correct pred y)%Q /\
    (l == mean_squared_error pred y)%Q /\
    (Forall (fun p => p == 1)%Q pred -> Forall (fun t => t == 1)%Q y ->
     (l == 0)%Q /\ (a == 1)%Q).
Proof.
  intros Hx Hy pred.
  assert (Hp : length pred = length y).
  { unfold pred, Circuit. rewrite length_fmap. done. }
  assert (Hn : 0 < length y).
  { rewrite Hy. destruct x; [done|simpl; lia]. }
  set (hit := zip_with Qeq_bool (jnp.sign <$> pred) y).
  set (sq := (fun e => e ^ 2)%Q <$> zip_with Qminus pred y).
  assert (Hhit : length (jnp.of_bool <$> hit) = length y).
  { unfold hit. rewrite length_fmap, length_zip_with, length_fmap. lia. }
  assert (Hsq : length sq = length y).
  { unfold sq. rewrite length_fmap, length_zip_with. lia. }
  exists (jnp.sum (jnp.of_bool <$> hit) / inject_Z (Z.of_nat (length y)))%Q,
         (jnp.sum sq / inject_Z (Z.of_nat (length y)))%Q.
  assert (Ha : (jnp.sum (jnp.of_bool <$> hit) / inject_Z (Z.of_nat (length y))
                == fraction_correct pred y)%Q).
  { unfold fraction_correct, hit. by rewrite sum_hits. }
  assert (Hl : (jnp.sum sq / inject_Z (Z.of_nat (length y))
                == mean_squared_error pred y)%Q).
  { unfold mean_squared_error, sq. by rewrite sum_squares. }
  assert (Hne : ~ (inject_Z (Z.of_nat (length y)) == 0)%Q).
  { change 0%Q with (inject_Z 0). rewrite inject_Z_injective. lia. }
  repeat split.
  - unfold Accuracy. fold pred.
    rewrite elementwise_aligned by (rewrite length_fmap; done).
    change (Ok (jnp.mean (jnp.of_bool <$> hit)) = Ok (Num
      (jnp.sum (jnp.of_bool <$> hit) / inject_Z (Z.of_nat (length y))))).
    rewrite mean_nonempty, Hhit; [done|].
    intros E. rewrite E in Hhit. simpl in Hhit. lia.
  - unfold Loss. fold pred. rewrite elementwise_aligned by done.
    change (Ok (jnp.mean sq)
            = Ok (Num (jnp.sum sq / inject_Z (Z.of_nat (length y))))).
    rewrite mean_nonempty, Hsq; [done|].
    intros E. rewrite E in Hsq. simpl in Hsq. lia.
  - rewrite Ha. apply fraction_bounds; [apply hits_le|done].
  - rewrite Ha. apply fraction_bounds; [apply hits_le|done].
  - exact Ha.
  - exact Hl.
  - rewrite Hl. unfold mean_squared_error.
    rewrite squared_error_zero by done. field. done.
  - rewrite Ha. unfold fraction_correct. rewrite hits_all by done.
    field. done.
Qed.

End Metrics.

Lemma Loss_Accuracy_spec_witness :
  exists a l : Q,
    Accuracy (fun _ _ => tt) always_plus_one small 0%Q x4 [1; 1; 1; 1]%Q
    = Ok (Num a) /\
    Loss (fun _ _ => tt) always_plus_one small 0%Q x4 [1; 1; 1; 1]%Q
    = Ok (Num l) /\
    (l == 0)%Q /\ (a == 1)%Q.
Proof.
  destruct (Loss_Accuracy_spec (fun _ _ => tt) always_plus_one small 0%Q x4
              [1; 1; 1; 1]%Q) as (a & l & Ha & Hl & _ & _ & _ & H);
    [discriminate|reflexivity|].
  exists a, l. repeat split; try done; apply H; repeat constructor.
Defined.

(** ** The training step *)

Section Step.

Context {Params OptState Device : Type}.
Variable qml_device : nat -> nat -> Device.
Variable qnode : Device -> nat -> nat -> list Q -> Params -> Q.
Variable qnode' : Device -> nat -> list Q -> Params -> Q.
Variable jax_grad : (Params -> result num) -> Params -> Params.
Variable adam : Q -> Optimizer Params OptState.

(** C6.  A training step returns exactly when the loss and the accuracy
    of the batch can be computed at [w = get_params(opt_state)], the
    parameters of the state it was given; it then returns that loss
    [Loss(w, x, y)], that accuracy [Accuracy(w, x, y)], and the state
    updated with the gradient of the loss taken at the same [w].  The
    same holds of [train_step] in [test.py]. *)
Theorem Train_Step_same_snapshot cfg seed n_qubits lr stepid
    (st : OptState) (f : list (list Q)) (t : list Q) l a st' :
  (let w := get_params (optimizer adam cfg) st in
   Train_Step qml_device qnode jax_grad adam cfg stepid st f t
   = Ok (l, a, st') <->
   Loss qml_device qnode cfg w f t = Ok l /\
   Accuracy qml_device qnode cfg w f t = Ok a /\
   st' = opt_update (optimizer adam cfg) stepid
           (jax_grad (fun w' => Loss qml_device qnode cfg w' f t) w) st) /\
  (let w := get_params (adam lr) st in
   test_py.train_step qml_device qnode' jax_grad adam seed n_qubits lr
     stepid st f t = Ok (l, a, st') <->
   test_py.loss_fn qml_device qnode' seed n_qubits w f t = Ok l /\
   test_py.acc_fn qml_device qnode' seed n_qubits w f t = Ok a /\
   st' = opt_update (adam lr) stepid
           (jax_grad (fun w' => test_py.loss_fn qml_device qnode' seed
                                  n_qubits w' f t) w) st).
Proof.
  split; cbn zeta.
  - unfold Train_Step, value_and_grad, rbind.
    destruct (Loss _ _ _ _ _ _) as [l0|e]; [|split; [done|by intros [? _]]].
    destruct (Accuracy _ _ _ _ _ _) as [a0|e];
      [|split; [done|by intros (_ & ? & _)]].
    split.
    + by intros [= <- <- <-].
    + by intros ([= <-] & [= <-] & ->).
  - unfold test_py.train_step, value_and_grad, rbind.
    destruct (test_py.loss_fn _ _ _ _ _ _ _) as [l0|e];
      [|split; [done|by intros [? _]]].
    destruct (test_py.acc_fn _ _ _ _ _ _ _) as [a0|e];
      [|split; [done|by intros (_ & ? & _)]].
    split.
    + by intros [= <- <- <-].
    + by intros ([= <-] & [= <-] & ->).
Qed.

End Step.

(** ** The training loop *)

Lemma opt_state_is_local : "opt_state" ∈ py.Train_Model_locals.
Proof. apply (bool_decide_unpack _). by vm_compute. Qed.

Lemma sgtep_is_no_local : "sgtep" ∉ py.Train_Model_locals.
Proof. apply (bool_decide_unpack _). by vm_compute. Qed.

Section Loop.

Context {Params OptState Device : Type}.
Variable qml_device : nat -> nat -> Device.
Variable qnode : Device -> nat -> nat -> list Q -> Params -> Q.
Variable jax_grad : (Params -> result num) -> Params -> Params.
Variable jax_random_uniform_pi : nat -> nat * nat -> Params.
Variable adam : Q -> Optimizer Params OptState.
Variable cfg : Config.

Local Abbreviation Train_Model' :=
  (Train_Model qml_device qnode jax_grad jax_random_uniform_pi adam cfg).

(** Before line 106 has assigned it, reading [opt_state] inside
    [Train_Model] raises, although the module has an [opt_state]. *)
Lemma load_opt_state_unbound (fr : Frame) (w : World Params) :
  l_opt_state fr = None ->
  load_opt_state jax_random_uniform_pi adam cfg fr w
  = (Raise (UnboundLocalError "opt_state"), w).
Proof.
  intros E. unfold load_opt_state, py.load.
  rewrite decide_True by apply opt_state_is_local. by rewrite E.
Qed.

(** At a reporting epoch, the progress line raises on its second
    interpolated value, whatever the loop has computed. *)
Lemma report_raises (fr : Frame) (i : nat) (w : World Params) :
  (i + 1) mod 100 = 0 ->
  report jax_random_uniform_pi adam cfg fr i w = (Raise (NameError "sgtep"), w).
Proof.
  intros Hi. unfold report. rewrite decide_True by done.
  unfold bind, py.load. by rewrite decide_False by apply sgtep_is_no_local.
Qed.

(** The first epoch of [Train_Model] ends the call: with what
    [Batch_and_Shuffle] raises, or at the first batch. *)
Lemma Train_Model_first_epoch x y (w : World Params) :
  0 < N_EPOCHS cfg ->
  exists e added g',
    Train_Model' x y w
    = (Raise e, {| np_random := g'; trace := trace w ++ added |}) /\
    (added = [] \/ added = header) /\
    match (Batch_and_Shuffle cfg x y (np_random w)).1 with
    | Ok _ => e = UnboundLocalError "opt_state" /\ added = header
    | Raise e' => e = e'
    end.
Proof.
  intros HE. destruct w as [g tr]. cbn [np_random trace]. unfold Train_Model.
  destruct (BATCH_SIZE cfg) as [|b] eqn:EB.
  { exists ZeroDivisionError, [], g. unfold bind, lift, np.int_div.
    rewrite app_nil_r. split; [done|]. split; [by left|].
    unfold Batch_and_Shuffle, bind, lift, np.int_div. by rewrite EB. }
  destruct (N_EPOCHS cfg) as [|n] eqn:EN; [lia|].
  unfold bind at 1. unfold lift at 1. unfold np.int_div at 1.
  unfold bind at 1. unfold emit at 1.
  unfold bind at 1. unfold emit at 1.
  unfold range. cbn [seq foldM]. unfold bind at 1. unfold bind at 1.
  unfold epoch at 1. unfold bind at 1. unfold with_np_random at 1.
  cbn [np_random trace]. rewrite <- !app_assoc. cbn [app].
  destruct (Batch_and_Shuffle cfg x y g) as [[[[fs ts] z]|e] g']
    eqn:EBS; cbn [fst snd].
  - apply Batch_and_Shuffle_Ok_inv in EBS as (_ & _ & _ & Hz & _).
    destruct z as [|z]; [done|]. unfold range. cbn [seq foldM].
    unfold bind at 1. unfold bind at 1. unfold train_batch at 1.
    unfold bind at 1. rewrite load_opt_state_unbound by done.
    exists (UnboundLocalError "opt_state"), header, g'.
    split; [done|]. split; [by right|done].
  - exists e, header, g'. split; [done|]. split; [by right|done].
Qed.

End Loop.

Lemma constants_epochs : 0 < N_EPOCHS constants.
Proof. exact (Nat.lt_0_succ 2999). Qed.

Section Run.

Context {Params OptState Device : Type}.
Variable qml_device : nat -> nat -> Device.
Variable qnode : Device -> nat -> nat -> list Q -> Params -> Q.
Variable jax_grad : (Params -> result num) -> Params -> Params.
Variable jax_random_uniform_pi : nat -> nat * nat -> Params.
Variable adam : Q -> Optimizer Params OptState.

(** C1 (as amended).  With at least one epoch to run, [Train_Model] never
    returns, on any dataset: it raises in its first epoch, having at most
    printed its two header lines, so that no optimizer step was made, no
    metric recorded and no checkpoint saved.  When [Batch_and_Shuffle]
    returns its batches, the exception is the unbound local [opt_state] at
    the first batch; otherwise it is the exception of
    [Batch_and_Shuffle]. *)
Theorem Train_Model_never_returns cfg x y (w : World Params) :
  0 < N_EPOCHS cfg ->
  exists e added g',
    Train_Model qml_device qnode jax_grad jax_random_uniform_pi adam cfg x y w
    = (Raise e, {| np_random := g'; trace := trace w ++ added |}) /\
    stepids added = [] /\ records added = [] /\ checkpoints added = [] /\
    progress_epochs added = [] /\
    match (Batch_and_Shuffle cfg x y (np_random w)).1 with
    | Ok _ => e = UnboundLocalError "opt_state"
    | Raise e' => e = e'
    end.
Proof.
  intros HE.
  destruct (Train_Model_first_epoch qml_device qnode jax_grad
              jax_random_uniform_pi adam cfg x y w HE)
    as (e & added & g' & H & Hadd & He).
  exists e, added, g'. split; [done|].
  assert (Hev : stepids added = [] /\ records added = [] /\
                checkpoints added = [] /\ progress_epochs added = [])
    by (destruct Hadd as [-> | ->]; done).
  destruct Hev as (? & ? & ? & ?). repeat split; try done.
  destruct (Batch_and_Shuffle cfg x y (np_random w)).1; [apply He|done].
Qed.

(** C4 (the code's behaviour).  With the constants of the script,
    [Train_Model] prints no progress line on any dataset, and the
    reporting statement itself, run at a reporting epoch [100k + 100]
    with any values of the loop variables, raises a [NameError] for
    [sgtep] before it prints anything. *)
Theorem progress_line_never_printed x y (w : World Params) fr k :
  (exists e added g',
     Train_Model qml_device qnode jax_grad jax_random_uniform_pi adam
       constants x y w
     = (Raise e, {| np_random := g'; trace := trace w ++ added |}) /\
     progress_epochs added = []) /\
  report jax_random_uniform_pi adam constants fr (100 * k + 99) w
  = (Raise (NameError "sgtep"), w).
Proof.
  split.
  - destruct (Train_Model_first_epoch qml_device qnode jax_grad
                jax_random_uniform_pi adam constants x y w constants_epochs)
      as (e & added & g' & H & Hadd & _).
    exists e, added, g'. split; [done|]. by destruct Hadd as [-> | ->].
  - apply report_raises.
    replace (100 * k + 99 + 1) with ((k + 1) * 100) by lia.
    apply Nat.Div0.mod_mul.
Qed.

(** C5 (the code's behaviour).  With the constants of the script, a call
    of [Train_Model] makes no call of the jitted step and stores no metric
    record, on any dataset, where [E * C] of each are claimed.  In
    [test.py], whose loop does run, two epochs of two batches pass the
    step indices 0, 0, 1, 1 to the optimizer (the epoch, not a counter of
    the calls) and store two records, one per epoch. *)
Theorem step_records_not_produced x y (w : World Params) :
  (exists e added g',
     Train_Model qml_device qnode jax_grad jax_random_uniform_pi adam
       constants x y w
     = (Raise e, {| np_random := g'; trace := trace w ++ added |}) /\
     stepids added = [] /\ records added = []) /\
  (let run := test_py.training (fun _ _ => tt) always_plus_one_layers
                (fun _ w => w) descent 0 2 2 (1 # 100) 2
                [[[1; 2]; [3; 4]]; [[5; 6]; [7; 8]]]%Q [[1; -1]; [1; -1]]%Q
                (1 # 2)%Q fresh in
   is_Ok run.1 = true /\
   stepids (trace run.2) = [0; 0; 1; 1] /\ records (trace run.2) = [0; 1]).
Proof.
  split.
  - destruct (Train_Model_first_epoch qml_device qnode jax_grad
                jax_random_uniform_pi adam constants x y w constants_epochs)
      as (e & added & g' & H & Hadd & _).
    exists e, added, g'. split; [done|]. by destruct Hadd as [-> | ->].
  - by vm_compute.
Qed.

End Run.

Lemma Train_Model_never_returns_witness :
  (Train_Model (fun _ _ => tt) always_plus_one (fun _ w => w)
     (fun _ _ => 0%Q) descent small x4 y4 fresh).1
  = Raise (UnboundLocalError "opt_state").
Proof.
  destruct (Train_Model_never_returns (fun _ _ => tt) always_plus_one
              (fun _ w => w) (fun _ _ => 0%Q) descent small x4 y4 fresh)
    as (e & added & g' & H & _ & _ & _ & _ & He).
  - by_computation.
  - rewrite H. vm_compute in He. by rewrite He.
Defined.

(** C1 as the claim states it fails: on 100 rows, fewer than one batch,
    the exception is the division by zero of [np.split], raised inside
    [Batch_and_Shuffle] before any batch is reached, and on 700 rows it is
    the [ValueError] of an unequal split; neither is an unbound local. *)
Lemma Train_Model_other_exceptions :
  (Train_Model (fun _ _ => tt) always_plus_one (fun _ w => w)
     (fun _ _ => 0%Q) descent constants (sample_rows 100) (sample_labels 100)
     fresh).1 = Raise ZeroDivisionError /\
  (Train_Model (fun _ _ => tt) always_plus_one (fun _ w => w)
     (fun _ _ => 0%Q) descent constants (sample_rows 700) (sample_labels 700)
     fresh).1 = Raise ValueError.
Proof. split; by_computation. Qed.

(** ** The ROC reporter *)

Lemma getitem_raises {A} (a : list A) i e :
  py.getitem a i = Raise e -> e = IndexError.
Proof.
  unfold py.getitem, py.position, rbind.
  destruct (_ && _); [|by intros [= <-]].
  destruct (a !! _); [done|by intros [= <-]].
Qed.

Section Reporter.

Context {Params Device : Type}.
Variable qml_device : nat -> nat -> Device.
Variable qnode : Device -> nat -> nat -> list Q -> Params -> Q.
Variable roc_curve : list Q -> list (list Q) -> list Q * list Q * list Q.
Variable roc_auc_score : list Q -> list (list Q) -> Q.

(** C10 (the code's behaviour).  [Plot_ROC] never gets to the ROC curve.
    On every input it raises: what [int(len(x) / BATCH_SIZE)] or
    [np.split] raise when they fail, and otherwise an [IndexError], when
    the first batch of predictions is stored in the 0-dimensional array
    [np.array(TEST_SIZE)].  The latter is what happens on a test set of
    the script's 5000 rows. *)
Theorem Plot_ROC_raises cfg (w : Params) x y :
  Plot_ROC qml_device qnode roc_curve roc_auc_score cfg w x y
  = match np.int_div (length x) (BATCH_SIZE cfg) with
    | Raise e => Raise e
    | Ok depth => match np.split x depth with
                  | Raise e => Raise e
                  | Ok _ => Raise IndexError
                  end
    end /\
  Plot_ROC qml_device qnode roc_curve roc_auc_score constants w
    (sample_rows 5000) (sample_labels 5000) = Raise IndexError.
Proof.
  assert (H : forall cfg x y,
    Plot_ROC qml_device qnode roc_curve roc_auc_score cfg w x y
    = match np.int_div (length x) (BATCH_SIZE cfg) with
      | Raise e => Raise e
      | Ok depth => match np.split x depth with
                    | Raise e => Raise e
                    | Ok _ => Raise IndexError
                    end
      end).
  { clear cfg x y. intros cfg x y. unfold Plot_ROC.
    destruct (np.int_div _ _) as [depth|e]; [|done].
    cbn [rbind]. destruct (np.split x depth) as [new_x|e] eqn:Es; [|done].
    cbn [rbind]. destruct depth as [|d]; [done|].
    unfold range. cbn [seq foldR].
    destruct (py.getitem new_x (Z.of_nat 0)) as [xi|e] eqn:Eg; [done|].
    apply getitem_raises in Eg as ->. done. }
  split; [apply H|]. rewrite H.
  assert (E : is_Ok (np.split (sample_rows 5000) 25) = true) by by_computation.
  change (np.int_div (length (sample_rows 5000)) (BATCH_SIZE constants))
    with (np.int_div (length (sample_rows 5000)) 200).
  replace (np.int_div (length (sample_rows 5000)) 200) with (Ok (A:=nat) 25)
    by by_computation.
  by destruct (np.split (sample_rows 5000) 25).
Qed.

End Reporter.

(** ** More on batching: the generator, and what the batches hold *)

Lemma last_column_stacked {A} (d : A) (x : list (list A)) (y : list A) :
  length x = length y -> np.last_column d (np.stacked x y) = y.
Proof.
  unfold np.last_column, np.stacked. revert y.
  induction x as [|r x IH]; intros [|t y] Hl; simplify_eq/=; [done|].
  by rewrite last_snoc, IH.
Qed.

(** X1.  Features and labels of different lengths make the call raise
    [np.column_stack]'s [ValueError] before anything is shuffled: the
    generator is left as it was. *)
Theorem Batch_and_Shuffle_misaligned cfg x y g :
  BATCH_SIZE cfg <> 0 -> length x <> length y ->
  Batch_and_Shuffle cfg x y g = (Raise ValueError, g).
Proof.
  intros HB Hxy. unfold Batch_and_Shuffle, bind, lift, np.int_div.
  destruct (BATCH_SIZE cfg); [done|].
  unfold np.column_stack. by rewrite decide_False.
Qed.

Lemma Batch_and_Shuffle_misaligned_witness :
  Batch_and_Shuffle small x4 [1%Q] sample_tape = (Raise ValueError, sample_tape).
Proof.
  apply Batch_and_Shuffle_misaligned; by_computation.
Defined.

(** The batches of a returning call, put end to end, are the columns of
    the shuffled stacked rows. *)
Lemma Batch_and_Shuffle_concat cfg x y g fs ts z g' :
  Batch_and_Shuffle cfg x y g = (Ok (fs, ts, z), g') ->
  length x = length y /\
  exists data, Permutation data (np.stacked x y) /\
    concat fs = np.columns_upto (N_QUBITS cfg) data /\
    concat ts = np.last_column 0%Q data.
Proof.
  intros H. apply Batch_and_Shuffle_Ok_inv in H
    as (HB & Hxy & Hz & Hz0 & Hm & Hfs & Hts).
  split; [done|]. cbn zeta in Hfs, Hts.
  set (data := (np.shuffle_from (length x - 1) g (np.stacked x y)).1) in *.
  assert (Hperm : Permutation data (np.stacked x y))
    by apply shuffle_from_Permutation.
  assert (Hlen : length data = z * (length x / z)).
  { rewrite (Permutation_length Hperm). unfold np.stacked.
    rewrite length_zip_with by lia.
    pose proof (Nat.div_mod_eq (length x) z). lia. }
  exists data. split; [done|]. subst fs ts.
  split; apply concat_pieces.
  - unfold np.columns_upto. by rewrite length_fmap.
  - unfold np.last_column. by rewrite length_fmap.
Qed.

(** X3.  Whenever a call returns, the label batches together are a
    rearrangement of the input labels (every label once, so the balance of
    the classes is kept), and the feature batches together are a
    rearrangement of the first [N_QUBITS] columns of the stacked rows
    [x_i ++ [y_i]]. *)
Theorem Batch_and_Shuffle_keeps_rows cfg x y g fs ts z g' :
  Batch_and_Shuffle cfg x y g = (Ok (fs, ts, z), g') ->
  Permutation (concat ts) y /\
  Permutation (concat fs) (take (N_QUBITS cfg) <$> np.stacked x y).
Proof.
  intros H. apply Batch_and_Shuffle_concat in H
    as (Hxy & data & Hperm & -> & ->). split.
  - transitivity (np.last_column 0%Q (np.stacked x y)).
    + unfold np.last_column. by rewrite Hperm.
    + by rewrite last_column_stacked.
  - unfold np.columns_upto. by rewrite Hperm.
Qed.

Lemma Batch_and_Shuffle_keeps_rows_witness :
  Permutation (concat [[1; 1]; [-1; -1]]%Q) y4 /\
  Permutation (concat [[[1; 2]; [5; 6]]; [[3; 4]; [7; 8]]]%Q)
    (take 2 <$> np.stacked x4 y4).
Proof.
  apply (Batch_and_Shuffle_keeps_rows small x4 y4 sample_tape
           [[[1; 2]; [5; 6]]; [[3; 4]; [7; 8]]]%Q [[1; 1]; [-1; -1]]%Q 2
           {| np.tape := np.tape sample_tape; np.pos := 3 |}).
  vm_compute. reflexivity.
Defined.

Lemma take_short_rows {A} n (l : list (list A)) :
  Forall (fun r => length r <= n) l -> take n <$> l = l.
Proof.
  induction 1 as [|r l Hr _ IH]; [done|].
  by rewrite fmap_cons, IH, take_ge.
Qed.

(** X4.  When the feature rows have fewer than [N_QUBITS] columns, the
    slice [data[:, 0:N_QUBITS]] reaches the label column: the feature
    batches handed on are the stacked rows, each with its own label as last
    entry. *)
Theorem Batch_and_Shuffle_narrow_rows cfg x y g fs ts z g' :
  Forall (fun r => length r < N_QUBITS cfg) x ->
  Batch_and_Shuffle cfg x y g = (Ok (fs, ts, z), g') ->
  Permutation (concat fs) (np.stacked x y) /\
  Forall (fun r => exists xi t, r = xi ++ [t] /\ xi ∈ x /\ t ∈ y) (concat fs).
Proof.
  intros Hw H. apply Batch_and_Shuffle_concat in H
    as (Hxy & data & Hperm & -> & _).
  assert (Hst : Forall (fun r => exists xi t,
                          r = xi ++ [t] /\ xi ∈ x /\ t ∈ y /\
                          length xi < N_QUBITS cfg) (np.stacked x y)).
  { unfold np.stacked. clear Hperm. revert y Hxy.
    induction Hw as [|r x Hr Hw IH]; intros [|t y] Hxy; simplify_eq/=;
      constructor.
    - exists r, t. repeat split; try done; apply elem_of_cons; by left.
    - eapply Forall_impl; [by apply IH|].
      intros ? (xi & t' & -> & ? & ? & ?). exists xi, t'.
      repeat split; try done; apply elem_of_cons; by right. }
  assert (Hid : take (N_QUBITS cfg) <$> np.stacked x y = np.stacked x y).
  { apply take_short_rows. eapply Forall_impl; [exact Hst|].
    intros r (xi & t & -> & _ & _ & Hlen). rewrite length_app. simpl. lia. }
  assert (Hp : Permutation (np.columns_upto (N_QUBITS cfg) data)
                 (np.stacked x y)).
  { unfold np.columns_upto. by rewrite Hperm, Hid. }
  split; [done|]. rewrite Hp.
  eapply Forall_impl; [exact Hst|]. intros r (xi & t & -> & ? & ? & _).
  by exists xi, t.
Qed.

Lemma Batch_and_Shuffle_narrow_rows_witness :
  Permutation
    (concat [[[1; 2; 1]; [5; 6; 1]]; [[3; 4; -1]; [7; 8; -1]]]%Q)
    (np.stacked x4 y4).
Proof.
  apply (Batch_and_Shuffle_narrow_rows
           {| SEED := 0; TRAIN_SIZE := 4; TEST_SIZE := 4; N_QUBITS := 3;
              N_PARAMS_B := 3; LR := 1 # 100; N_EPOCHS := 2; BATCH_SIZE := 2 |}
           x4 y4 sample_tape
           [[[1; 2; 1]; [5; 6; 1]]; [[3; 4; -1]; [7; 8; -1]]]%Q
           [[1; 1]; [-1; -1]]%Q 2
           {| np.tape := np.tape sample_tape; np.pos := 3 |}).
  - repeat constructor.
  - vm_compute. reflexivity.
Defined.

(** X5.  When the feature rows have at least [N_QUBITS] columns, the
    columns from [N_QUBITS] on are dropped without notice: the feature
    batches are a rearrangement of the input rows cut to [N_QUBITS]
    columns, and the labels never enter them. *)
Theorem Batch_and_Shuffle_wide_rows cfg x y g fs ts z g' :
  Forall (fun r => N_QUBITS cfg <= length r) x ->
  Batch_and_Shuffle cfg x y g = (Ok (fs, ts, z), g') ->
  Permutation (concat fs) (take (N_QUBITS cfg) <$> x).
Proof.
  intros Hw H. apply Batch_and_Shuffle_concat in H
    as (Hxy & data & Hperm & -> & _).
  unfold np.columns_upto. rewrite Hperm.
  assert (E : take (N_QUBITS cfg) <$> np.stacked x y
              = take (N_QUBITS cfg) <$> x); [|by rewrite E].
  clear Hperm. unfold np.stacked. revert y Hxy.
  induction Hw as [|r x Hr Hw IH]; intros [|t y] Hxy; simplify_eq/=; [done|].
  rewrite IH by done. f_equal. by apply take_app_le.
Qed.

Lemma Batch_and_Shuffle_wide_rows_witness :
  Permutation (concat [[[1]; [5]]; [[3]; [7]]]%Q) (take 1 <$> x4).
Proof.
  apply (Batch_and_Shuffle_wide_rows
           {| SEED := 0; TRAIN_SIZE := 4; TEST_SIZE := 4; N_QUBITS := 1;
              N_PARAMS_B := 3; LR := 1 # 100; N_EPOCHS := 2; BATCH_SIZE := 2 |}
           x4 y4 sample_tape [[[1]; [5]]; [[3]; [7]]]%Q
           [[1; 1]; [-1; -1]]%Q 2
           {| np.tape := np.tape sample_tape; np.pos := 3 |}).
  - repeat constructor.
  - vm_compute. reflexivity.
Defined.

(** ** Evaluation *)

Lemma position_nat n j : j < n -> py.position n (Z.of_nat j) = Ok j.
Proof.
  intros Hj. unfold py.position.
  destruct (Z.of_nat j <? 0)%Z eqn:E; [lia|].
  rewrite (proj2 (Z.leb_le _ _)), (proj2 (Z.ltb_lt _ _)) by lia. simpl.
  by rewrite Nat2Z.id.
Qed.

Lemma getitem_nat {A} (a : list A) j v :
  a !! j = Some v -> py.getitem a (Z.of_nat j) = Ok v.
Proof.
  intros Hv. unfold py.getitem.
  rewrite position_nat by (by eapply lookup_lt_Some). simpl. by rewrite Hv.
Qed.

Lemma setitem_nat {A} (a : list A) j v :
  j < length a -> py.setitem a (Z.of_nat j) v = Ok (<[j:=v]> a).
Proof. intros Hj. unfold py.setitem. by rewrite position_nat. Qed.

Section Evaluation.

Context {Params Device : Type}.
Variable qml_device : nat -> nat -> Device.
Variable qnode : Device -> nat -> nat -> list Q -> Params -> Q.
Variable jax_grad : (Params -> result num) -> Params -> Params.
Variable format_float : nat -> num -> string.
Variable cfg : Config.
Variable w : Params.

Local Abbreviation error := (row_error qml_device qnode cfg w).
Local Abbreviation hit := (row_hit qml_device qnode cfg w).

(** The metrics of a batch of stacked rows, cut in features and labels. *)
Lemma Loss_rows (d : list (list Q)) :
  Loss qml_device qnode cfg w (np.columns_upto (N_QUBITS cfg) d)
    (np.last_column 0%Q d) = Ok (jnp.mean (error <$> d)).
Proof.
  unfold Loss, Circuit, np.columns_upto, np.last_column.
  rewrite elementwise_aligned by (by rewrite !length_fmap). cbn [rbind].
  do 2 f_equal. induction d as [|r d IH]; [done|].
  rewrite !fmap_cons. cbn [zip_with]. rewrite !fmap_cons. by f_equal.
Qed.

Lemma Accuracy_rows (d : list (list Q)) :
  Accuracy qml_device qnode cfg w (np.columns_upto (N_QUBITS cfg) d)
    (np.last_column 0%Q d) = Ok (jnp.mean (hit <$> d)).
Proof.
  unfold Accuracy, Circuit, np.columns_upto, np.last_column.
  rewrite elementwise_aligned by (by rewrite !length_fmap). cbn [rbind].
  do 2 f_equal. induction d as [|r d IH]; [done|].
  rewrite !fmap_cons. cbn [zip_with]. rewrite !fmap_cons. by f_equal.
Qed.

Lemma Test_Step_rows (d : list (list Q)) :
  Test_Step qml_device qnode jax_grad cfg w
    (np.columns_upto (N_QUBITS cfg) d) (np.last_column 0%Q d)
  = Ok (jnp.mean (error <$> d), jnp.mean (hit <$> d)).
Proof.
  unfold Test_Step, value_and_grad. rewrite Loss_rows. cbn [rbind].
  by rewrite Accuracy_rows.
Qed.

(** The loop of [Test_Model] over the batches [s .. s+n-1] fills these
    slots of the two arrays with the metrics of the batches, and leaves
    the world alone. *)
Lemma test_loop (D : list (list (list Q))) n s lt at_ (wd : World Params) :
  s + n <= length D -> length lt = length D -> length at_ = length D ->
  foldM (seq s n) (lt, at_)
    (test_batch qml_device qnode jax_grad cfg w
       (np.columns_upto (N_QUBITS cfg) <$> D) (np.last_column 0%Q <$> D)) wd
  = (Ok (list_inserts s
           ((fun d => jnp.mean (error <$> d)) <$> take n (drop s D)) lt,
         list_inserts s
           ((fun d => jnp.mean (hit <$> d)) <$> take n (drop s D)) at_), wd).
Proof.
  revert s lt at_. induction n as [|n IH]; intros s lt at_ Hs Hlt Hat.
  { by rewrite take_0. }
  destruct (lookup_lt_is_Some_2 D s) as [d Hd]; [lia|].
  rewrite (drop_S _ _ _ Hd). cbn [seq foldM take fmap list_fmap list_inserts].
  unfold bind at 1. unfold test_batch at 1. unfold bind, lift.
  rewrite (getitem_nat _ s (np.columns_upto (N_QUBITS cfg) d))
    by (by rewrite list_lookup_fmap, Hd).
  rewrite (getitem_nat _ s (np.last_column 0%Q d))
    by (by rewrite list_lookup_fmap, Hd).
  rewrite Test_Step_rows. cbn [fst snd].
  rewrite !setitem_nat by lia. unfold ret.
  rewrite (IH (S s) (<[s:=jnp.mean (error <$> d)]> lt)
             (<[s:=jnp.mean (hit <$> d)]> at_))
    by (rewrite ?length_insert; lia).
  by rewrite !list_insert_inserts_lt by lia.
Qed.

End Evaluation.

Lemma list_inserts_full {A} (vals l : list A) :
  length vals = length l -> list_inserts 0 vals l = vals.
Proof.
  intros H. rewrite <- (app_nil_r vals) at 1. by apply list_inserts_0_l.
Qed.

Section Whole_set.

Context {Params Device : Type}.
Variable qml_device : nat -> nat -> Device.
Variable qnode : Device -> nat -> nat -> list Q -> Params -> Q.
Variable jax_grad : (Params -> result num) -> Params -> Params.
Variable format_float : nat -> num -> string.
Variable cfg : Config.
Variable w : Params.

(** X8.  On aligned data that splits in [z >= 1] equal batches,
    [Test_Model] returns (where [Train_Model] never does): with [ms] the
    loss and accuracy that [Test_Step] computes on each of the [z] batches
    of [Batch_and_Shuffle], it returns the average of the losses and the
    average of the accuracies, prints its two header lines and one summary
    line showing these two averages, and leaves no other trace. *)
Theorem Test_Model_averages_batches x y (wd : World Params) :
  BATCH_SIZE cfg <> 0 -> length x = length y ->
  length x / BATCH_SIZE cfg <> 0 ->
  length x mod (length x / BATCH_SIZE cfg) = 0 ->
  exists fs ts z g' ms,
    Batch_and_Shuffle cfg x y (np_random wd) = (Ok (fs, ts, z), g') /\
    length ms = z /\
    Forall2 (fun (ft : list (list Q) * list Q) m =>
               Test_Step qml_device qnode jax_grad cfg w ft.1 ft.2 = Ok m)
      (zip fs ts) ms /\
    Test_Model qml_device qnode jax_grad format_float cfg w x y wd
    = (Ok (np_average ms.*1, np_average ms.*2),
       {| np_random := g';
          trace := trace wd ++
            [Printed "Testing...";
             Printed (tab +:+ "Loss" +:+ tab +:+ "Accuracy");
             Printed (summary_line format_float (np_average ms.*1)
                        (np_average ms.*2))] |}).
Proof.
  intros HB Hxy Hz Hm.
  set (N := length x) in *. set (z := N / BATCH_SIZE cfg) in *.
  set (k := N / z).
  assert (HN : N = z * k).
  { unfold k. pose proof (Nat.div_mod_eq N z). lia. }
  pose proof (Batch_and_Shuffle_run cfg x y (np_random wd) HB Hxy) as Hrun.
  cbn zeta in Hrun. fold N z in Hrun.
  set (sh := np.shuffle_from (N - 1) (np_random wd) (np.stacked x y)) in *.
  assert (Hlen : length sh.1 = N).
  { unfold sh. rewrite (Permutation_length (shuffle_from_Permutation _ _ _)).
    unfold np.stacked. rewrite length_zip_with; lia. }
  rewrite !split_Ok in Hrun
    by (unfold np.columns_upto, np.last_column; rewrite ?length_fmap, ?Hlen;
        done).
  unfold np.columns_upto at 1, np.last_column at 1 in Hrun.
  rewrite !length_fmap, Hlen in Hrun. fold k in Hrun.
  unfold np.columns_upto, np.last_column in Hrun.
  rewrite !pieces_fmap in Hrun. cbn [rbind] in Hrun.
  set (D := np.pieces z k sh.1) in *.
  assert (HD : length D = z) by apply pieces_length.
  change (fmap (M:=list) (take (N_QUBITS cfg)) <$> D)
    with (np.columns_upto (N_QUBITS cfg) <$> D) in Hrun.
  change (fmap (M:=list) (fun r : list Q => default 0%Q (last r)) <$> D)
    with (np.last_column 0%Q <$> D) in Hrun.
  set (metrics := fun d : list (list Q) =>
         (jnp.mean (row_error qml_device qnode cfg w <$> d),
          jnp.mean (row_hit qml_device qnode cfg w <$> d))).
  exists (np.columns_upto (N_QUBITS cfg) <$> D), (np.last_column 0%Q <$> D),
         z, sh.2, (metrics <$> D).
  split; [exact Hrun|]. split; [by rewrite length_fmap|]. split.
  { clear. induction D as [|d D IH]; [constructor|].
    rewrite !fmap_cons. cbn [zip zip_with]. constructor; [|exact IH].
    apply Test_Step_rows. }
  unfold Test_Model. unfold bind at 1. unfold emit at 1.
  unfold bind at 1. unfold emit at 1. unfold bind at 1.
  unfold with_np_random. cbn [np_random trace]. rewrite Hrun.
  unfold bind at 1.
  unfold range. rewrite test_loop by (rewrite ?length_replicate; lia).
  rewrite drop_0, take_ge by lia.
  rewrite !list_inserts_full by (by rewrite length_fmap, length_replicate).
  cbn [fst snd]. unfold bind, emit, ret. cbn [trace np_random].
  rewrite <- !app_assoc. unfold metrics.
  by rewrite <- !list_fmap_compose.
Qed.

End Whole_set.

(** ** Runs that only print *)

Section printing.

Context {Params : Type}.
Implicit Types wd : World Params.










End printing.

Section Entry.

Context {Params OptState Device : Type}.
Variable qml_device : nat -> nat -> Device.
Variable qnode : Device -> nat -> nat -> list Q -> Params -> Q.
Variable jax_grad : (Params -> result num) -> Params -> Params.
Variable jax_random_uniform_pi : nat -> nat * nat -> Params.
Variable adam : Q -> Optimizer Params OptState.
Variable roc_curve : list Q -> list (list Q) -> list Q * list Q * list Q.
Variable roc_auc_score : list Q -> list (list Q) -> Q.
Variable format_float : nat -> num -> string.
Variable cfg : Config.

(** With no epoch to run, [Train_Model] prints its header, skips the loop
    and raises at the final checkpoint, which reads the never assigned
    local [opt_state]. *)
Lemma Train_Model_no_epoch x y (wd : World Params) :
  N_EPOCHS cfg = 0 -> BATCH_SIZE cfg <> 0 ->
  Train_Model qml_device qnode jax_grad jax_random_uniform_pi adam cfg x y wd
  = (Raise (UnboundLocalError "opt_state"),
     {| np_random := np_random wd; trace := trace wd ++ header |}).
Proof.
  intros HE HB. unfold Train_Model. rewrite HE.
  destruct (BATCH_SIZE cfg) as [|b]; [done|].
  unfold bind at 1. unfold lift at 1. unfold np.int_div at 1.
  unfold bind at 1. unfold emit at 1.
  unfold bind at 1. unfold emit at 1.
  unfold range. cbn [seq foldM]. unfold bind at 1. unfold ret at 1.
  unfold bind at 1. rewrite load_opt_state_unbound by done.
  cbn [np_random trace]. by rewrite <- app_assoc.
Qed.

(** X10.  [Train_Model] returns for no configuration and no dataset, not
    even with zero epochs: it always raises, having printed at most its
    two header lines.  With zero epochs and a positive batch size the
    exception is the unbound local [opt_state], raised at the final
    checkpoint. *)
Theorem Train_Model_any_configuration x y (wd : World Params) :
  exists e g' added,
    Train_Model qml_device qnode jax_grad jax_random_uniform_pi adam cfg x y wd
    = (Raise e, {| np_random := g'; trace := trace wd ++ added |}) /\
    (added = [] \/ added = header) /\
    (N_EPOCHS cfg = 0 -> BATCH_SIZE cfg <> 0 ->
     e = UnboundLocalError "opt_state" /\ added = header).
Proof.
  destruct (N_EPOCHS cfg) as [|n] eqn:HE.
  - destruct (decide (BATCH_SIZE cfg = 0)) as [HB|HB].
    + exists ZeroDivisionError, (np_random wd), []. rewrite app_nil_r.
      split; [|split; [by left|done]].
      unfold Train_Model, bind, lift, np.int_div. rewrite HB. by destruct wd.
    + exists (UnboundLocalError "opt_state"), (np_random wd), header.
      split; [by apply Train_Model_no_epoch|]. split; [by right|done].
  - destruct (Train_Model_first_epoch qml_device qnode jax_grad
                jax_random_uniform_pi adam cfg x y wd)
      as (e & added & g' & H & Hadd & _); [lia|].
    exists e, g', added. split; [done|]. split; [done|]. done.
Qed.




(** X9.  When the test set cannot be cut in equal batches, [Test_Model]
    prints its two header lines and raises what [np.split] raises inside
    [Batch_and_Shuffle]: a division by zero when there are fewer rows than
    one batch, a [ValueError] when the rows do not divide evenly. *)
Theorem Test_Model_unbatchable (w : Params) x y (wd : World Params) :
  BATCH_SIZE cfg <> 0 -> length x = length y ->
  length x / BATCH_SIZE cfg = 0 \/
  length x mod (length x / BATCH_SIZE cfg) <> 0 ->
  exists g',
    Test_Model qml_device qnode jax_grad format_float cfg w x y wd
    = (Raise (if decide (length x / BATCH_SIZE cfg = 0)
              then ZeroDivisionError else ValueError),
       {| np_random := g';
          trace := trace wd ++
            [Printed "Testing...";
             Printed (tab +:+ "Loss" +:+ tab +:+ "Accuracy")] |}).
Proof.
  intros HB Hxy Hz.
  pose proof (Batch_and_Shuffle_run cfg x y (np_random wd) HB Hxy) as Hrun.
  cbn zeta in Hrun.
  set (sh := np.shuffle_from (length x - 1) (np_random wd) (np.stacked x y))
    in *.
  assert (Hlen : length sh.1 = length x).
  { unfold sh. rewrite (Permutation_length (shuffle_from_Permutation _ _ _)).
    unfold np.stacked. rewrite length_zip_with; lia. }
  exists sh.2. unfold Test_Model. unfold bind at 1. unfold emit at 1.
  unfold bind at 1. unfold emit at 1. unfold bind at 1.
  unfold with_np_random. cbn [np_random trace]. rewrite Hrun.
  rewrite <- app_assoc. cbn [app].
  destruct (decide (length x / BATCH_SIZE cfg = 0)) as [E|E].
  - by rewrite E.
  - destruct Hz as [Hz|Hz]; [done|].
    rewrite split_remainder;
      [done|done|unfold np.columns_upto; by rewrite length_fmap, Hlen].
Qed.

End Entry.

Section Script_facts.

Context {Params OptState Device : Type}.
Variable qml_device : nat -> nat -> Device.
Variable qnode : Device -> nat -> nat -> list Q -> Params -> Q.
Variable jax_grad : (Params -> result num) -> Params -> Params.
Variable jax_random_uniform_pi : nat -> nat * nat -> Params.
Variable adam : Q -> Optimizer Params OptState.
Variable roc_curve : list Q -> list (list Q) -> list Q * list Q * list Q.
Variable roc_auc_score : list Q -> list (list Q) -> Q.
Variable format_float : nat -> num -> string.
Variable ld_full :
  nat -> nat -> nat -> result (list (list Q) * list Q * list (list Q) * list Q).
Variable scandir : string -> result (list string).
Variable input : string -> result string.
Variable np_load : string -> result Params.
Variable roc_artifacts : list Q * list Q * list Q * list Q -> result unit.
Variable Plot_Loss_and_Acc : list Q -> list num -> list num -> result unit.
Variable to_csv : list Q -> list num -> list num -> num -> num -> result unit.
Variable cfg : Config.



End Script_facts.

Lemma Test_Model_averages_batches_witness :
  exists ms,
    length ms = 2 /\
    (Test_Model (fun _ _ => tt) always_plus_one (fun _ w => w)
       (fun _ _ => EmptyString) small 0%Q x4 y4 fresh).1
    = Ok (np_average ms.*1, np_average ms.*2).
Proof.
  destruct (Test_Model_averages_batches (fun _ _ => tt) always_plus_one
              (fun _ w => w) (fun _ _ => EmptyString) small 0%Q x4 y4 fresh)
    as (fs & ts & z & g' & ms & HBS & Hlen & _ & H); [by_computation..|].
  exists ms. split; [|by rewrite H].
  rewrite Hlen. vm_compute in HBS. by injection HBS as _ _ <- _.
Defined.

Lemma Test_Model_unbatchable_witness :
  (Test_Model (fun _ _ => tt) always_plus_one (fun _ w => w)
     (fun _ _ => EmptyString) small 0%Q [[1; 2]%Q] [1%Q] fresh).1
  = Raise ZeroDivisionError /\
  (Test_Model (fun _ _ => tt) always_plus_one (fun _ w => w)
     (fun _ _ => EmptyString) small 0%Q (x4 ++ [[9; 9]%Q]) (y4 ++ [1%Q])
     fresh).1
  = Raise ValueError.
Proof.
  split.
  - destruct (Test_Model_unbatchable (fun _ _ => tt) always_plus_one
                (fun _ w => w) (fun _ _ => EmptyString) small 0%Q
                [[1; 2]%Q] [1%Q] fresh) as [g' H];
      [by_computation|by_computation|left; by_computation|].
    by rewrite H.
  - destruct (Test_Model_unbatchable (fun _ _ => tt) always_plus_one
                (fun _ w => w) (fun _ _ => EmptyString) small 0%Q
                (x4 ++ [[9; 9]%Q]) (y4 ++ [1%Q]) fresh) as [g' H];
      [by_computation|by_computation|right; by_computation|].
    by rewrite H.
Defined.

(** ** More on the metrics and the steps *)

Lemma Qsqr_nonneg (a : Q) : (0 <= a ^ 2)%Q.
Proof.
  assert (E : (a ^ 2 == a * a)%Q) by (simpl; ring). rewrite E.
  destruct (Qlt_le_dec a 0) as [Hneg|Hpos].
  - assert (E2 : (a * a == (- a) * (- a))%Q) by ring. rewrite E2.
    apply Qmult_le_0_compat; lra.
  - by apply Qmult_le_0_compat.
Qed.

Lemma squared_error_nonneg pred y : (0 <= squared_error pred y)%Q.
Proof.
  revert y. induction pred as [|p pred IH]; intros [|t y]; simpl;
    try apply Qle_refl.
  specialize (IH y). pose proof (Qsqr_nonneg (p - t)) as Hs.
  simpl in Hs. lra.
Qed.

Lemma squared_error_matching pred y :
  Forall2 Qeq pred y -> (squared_error pred y == 0)%Q.
Proof.
  induction 1 as [|p t pred y Hpt _ IH]; simpl; [reflexivity|].
  rewrite IH, Hpt. ring.
Qed.

Lemma elementwise_single_label {C} (op : Q -> Q -> C) (a : list Q) (t : Q) :
  jnp.elementwise op a [t] = jnp.elementwise op a (replicate (length a) t).
Proof.
  unfold jnp.elementwise. rewrite length_replicate.
  rewrite (decide_True (P := length a = length a)) by done.
  rewrite zip_with_replicate_r_eq by done.
  destruct a as [|a0 [|a1 a]]; try done.
Qed.

Section Step_facts.

Context {Params OptState Device : Type}.
Variable qml_device : nat -> nat -> Device.
Variable qnode : Device -> nat -> nat -> list Q -> Params -> Q.
Variable jax_grad : (Params -> result num) -> Params -> Params.
Variable adam : Q -> Optimizer Params OptState.
Variable cfg : Config.

(** X6.  On a non-empty batch with one label per row the loss is never
    negative, and it is zero when every prediction equals its label. *)
Theorem Loss_nonneg_zero_on_match (w : Params) (x : list (list Q))
    (y : list Q) :
  x <> [] -> length y = length x ->
  exists l : Q,
    Loss qml_device qnode cfg w x y = Ok (Num l) /\
    (0 <= l)%Q /\
    (Forall2 Qeq (Circuit qml_device qnode cfg x w) y -> (l == 0)%Q).
Proof.
  intros Hx Hy. set (pred := Circuit qml_device qnode cfg x w).
  assert (Hp : length pred = length y).
  { unfold pred, Circuit. by rewrite length_fmap. }
  assert (Hn : 0 < length y).
  { rewrite Hy. destruct x; [done|simpl; lia]. }
  assert (Hq : (0 < inject_Z (Z.of_nat (length y)))%Q).
  { change 0%Q with (inject_Z 0). rewrite <- Zlt_Qlt. lia. }
  exists (squared_error pred y / inject_Z (Z.of_nat (length y)))%Q.
  pose proof (squared_error_nonneg pred y) as Hs. repeat split.
  - unfold Loss. fold pred. rewrite elementwise_aligned by done.
    cbn [rbind]. rewrite mean_nonempty, sum_squares.
    + by rewrite length_fmap, length_zip_with, Hp, Nat.min_id.
    + destruct pred, y; simpl in *; (lia || done).
  - apply Qle_shift_div_l; [done|]. by rewrite Qmult_0_l.
  - intros H. apply squared_error_matching in H.
    rewrite H. unfold Qdiv. ring.
Qed.

(** X7.  A label array of a single entry is stretched over the whole batch
    without notice: the loss and the accuracy of any batch against [[t]]
    are those against as many copies of [t] as the batch has rows. *)
Theorem metrics_single_label (w : Params) (x : list (list Q)) (t : Q) :
  Loss qml_device qnode cfg w x [t]
  = Loss qml_device qnode cfg w x (replicate (length x) t) /\
  Accuracy qml_device qnode cfg w x [t]
  = Accuracy qml_device qnode cfg w x (replicate (length x) t).
Proof.
  unfold Loss, Accuracy, Circuit. split.
  - rewrite elementwise_single_label. by rewrite length_fmap.
  - rewrite elementwise_single_label. by rewrite !length_fmap.
Qed.

(** X12.  When the number of labels differs from the number of rows, and
    neither is one, the step raises a [TypeError] and returns no state:
    the optimizer is not advanced.  [Test_Step] raises likewise. *)
Theorem steps_misaligned stepid (st : OptState) (w : Params)
    (f : list (list Q)) (t : list Q) :
  length f <> length t -> length f <> 1 -> length t <> 1 ->
  Train_Step qml_device qnode jax_grad adam cfg stepid st f t = Raise TypeError /\
  Test_Step qml_device qnode jax_grad cfg w f t = Raise TypeError.
Proof.
  intros Hft Hf Ht.
  assert (E : forall w', Loss qml_device qnode cfg w' f t = Raise TypeError).
  { intros w'. unfold Loss, Circuit, jnp.elementwise.
    rewrite decide_False by (by rewrite length_fmap).
    destruct f as [|f0 [|f1 f]]; try done; destruct t as [|t0 [|t1 t]]; done. }
  unfold Train_Step, Test_Step, value_and_grad. by rewrite !E.
Qed.

End Step_facts.

Lemma Loss_nonneg_zero_on_match_witness :
  exists l : Q,
    Loss (fun _ _ => tt) always_plus_one small 0%Q x4 [1; 1; 1; 1]%Q
    = Ok (Num l) /\ (l == 0)%Q.
Proof.
  destruct (Loss_nonneg_zero_on_match (fun _ _ => tt) always_plus_one small
              0%Q x4 [1; 1; 1; 1]%Q) as (l & Hl & _ & Hz); [done|done|].
  exists l. split; [done|]. apply Hz. repeat constructor.
Defined.

Lemma steps_misaligned_witness :
  Train_Step (fun _ _ => tt) always_plus_one (fun _ w => w) descent small 0
    (1 # 2)%Q x4 [1; 1; 1]%Q = Raise TypeError.
Proof.
  apply (steps_misaligned (fun _ _ => tt) always_plus_one (fun _ w => w)
           descent small 0 (1 # 2)%Q 0%Q x4 [1; 1; 1]%Q); by_computation.
Defined.

(** ** [test.py] *)




Lemma stepids_app {Params} (a b : list (event Params)) :
  stepids (a ++ b) = stepids a ++ stepids b.
Proof. apply omap_app. Qed.

Lemma records_app {Params} (a b : list (event Params)) :
  records (a ++ b) = records a ++ records b.
Proof. apply omap_app. Qed.

Lemma progress_epochs_app {Params} (a b : list (event Params)) :
  progress_epochs (a ++ b) = progress_epochs a ++ progress_epochs b.
Proof. apply omap_app. Qed.

Lemma checkpoints_app {Params} (a b : list (event Params)) :
  checkpoints (a ++ b) = checkpoints a ++ checkpoints b.
Proof. apply omap_app. Qed.

Lemma stepids_replicate {Params} n i :
  stepids (replicate n (@Stepped Params i)) = replicate n i.
Proof. induction n; simpl; [done|]. unfold stepids in *. simpl. by f_equal. Qed.

Lemma loss_value_is_local : "loss_value" ∈ test_py.QuantumModel_locals.
Proof. apply (bool_decide_unpack _). by vm_compute. Qed.

Lemma acc_value_is_local : "acc_value" ∈ test_py.QuantumModel_locals.
Proof. apply (bool_decide_unpack _). by vm_compute. Qed.

Section QuantumModel_facts.

Context {Params OptState Device : Type}.
Variable qml_device : nat -> nat -> Device.
Variable qnode : Device -> nat -> list Q -> Params -> Q.
Variable jax_grad : (Params -> result num) -> Params -> Params.
Variable adam : Q -> Optimizer Params OptState.
Variables (SEED N_QUBITS N_EPOCHS : nat) (LR : Q).

Local Abbreviation train_batch' :=
  (test_py.train_batch qml_device qnode jax_grad adam SEED N_QUBITS LR).
Local Abbreviation epoch' :=
  (test_py.epoch qml_device qnode jax_grad adam SEED N_QUBITS LR).

Lemma train_step_aligned i (st : OptState) x y :
  length x = length y ->
  exists l a st',
    test_py.train_step qml_device qnode jax_grad adam SEED N_QUBITS LR i st x y
    = Ok (l, a, st').
Proof.
  intros Hxy. unfold test_py.train_step, value_and_grad, test_py.loss_fn,
    test_py.acc_fn, test_py.circuit.
  rewrite !elementwise_aligned by (by rewrite ?length_fmap). cbn [rbind].
  by eexists _, _, _.
Qed.

Lemma inner_loop frames targets i n s (fr : test_py.Frame) (wd : World Params) :
  aligned_batches (s + n) frames targets ->
  s + n <= length (test_py.loss_temp fr) ->
  s + n <= length (test_py.acc_temp fr) ->
  exists fr',
    foldM (seq s n) fr (train_batch' frames targets i) wd
    = (Ok fr', {| np_random := np_random wd;
                  trace := trace wd ++ replicate n (Stepped i) |}) /\
    test_py.train_loss_data fr' = test_py.train_loss_data fr /\
    test_py.train_acc_data fr' = test_py.train_acc_data fr /\
    (0 < n \/ is_Some (test_py.loss_value fr) ->
     is_Some (test_py.loss_value fr')) /\
    (0 < n \/ is_Some (test_py.acc_value fr) ->
     is_Some (test_py.acc_value fr')).
Proof.
  revert s fr wd. induction n as [|n IH]; intros s fr wd Hb Hl Ha.
  { exists fr. simpl. rewrite app_nil_r. destruct wd.
    repeat split; try done; intros [?|?]; (lia || done). }
  destruct (Hb s) as (x & y & Hx & Hy & Hxy); [lia|].
  destruct (train_step_aligned i (test_py.opt_state fr) x y Hxy)
    as (l & a & st' & Hstep).
  cbn [seq foldM]. unfold bind at 1. unfold test_py.train_batch at 1.
  unfold bind, lift, emit.
  rewrite (getitem_nat _ s x Hx), (getitem_nat _ s y Hy), Hstep.
  rewrite !setitem_nat by lia. unfold ret.
  match goal with
  | |- context [foldM _ ?f _ ?w] =>
      destruct (IH (S s) f w) as (fr' & Hrun & H1 & H2 & H3 & H4)
  end.
  { intros j Hj. apply Hb. lia. }
  { cbn [test_py.loss_temp]. rewrite length_insert. lia. }
  { cbn [test_py.acc_temp]. rewrite length_insert. lia. }
  exists fr'. unfold bind in Hrun. rewrite Hrun. cbn [np_random trace].
  rewrite <- app_assoc. split; [done|]. split; [done|]. split; [done|].
  split; intros _; [apply H3|apply H4]; right; by eexists.
Qed.

Lemma checkpoints_replicate_Stepped n i :
  checkpoints (replicate n (@Stepped Params i)) = [] /\
  records (replicate n (@Stepped Params i)) = [] /\
  progress_epochs (replicate n (@Stepped Params i)) = [].
Proof. induction n as [|n IH]; [done|]. by destruct IH as (? & ? & ?). Qed.

Lemma epoch_run chunks frames targets (fr : test_py.Frame) i (wd : World Params) :
  0 < chunks -> aligned_batches chunks frames targets ->
  i < length (test_py.train_loss_data fr) ->
  i < length (test_py.train_acc_data fr) ->
  exists fr' added,
    epoch' chunks frames targets fr i wd
    = (Ok fr', {| np_random := np_random wd; trace := trace wd ++ added |}) /\
    length (test_py.train_loss_data fr') = length (test_py.train_loss_data fr) /\
    length (test_py.train_acc_data fr') = length (test_py.train_acc_data fr) /\
    stepids added = replicate chunks i /\
    records added = [i] /\
    progress_epochs added
    = (if decide ((i + 1) mod 100 = 0) then [i + 1] else []) /\
    checkpoints added = [].
Proof.
  intros Hc Hb Hl Ha. unfold test_py.epoch.
  match goal with
  | |- context [foldM _ ?f _] =>
      destruct (inner_loop frames targets i chunks 0 f wd)
        as (fr1 & Hrun & H1 & H2 & H3 & H4)
  end.
  { done. }
  { cbn [test_py.loss_temp]. rewrite length_replicate. lia. }
  { cbn [test_py.acc_temp]. rewrite length_replicate. lia. }
  cbn [test_py.train_loss_data test_py.train_acc_data] in H1, H2.
  destruct H3 as [l Hlv]; [left; lia|]. destruct H4 as [a Hav]; [left; lia|].
  destruct (checkpoints_replicate_Stepped chunks i) as (Hk1 & Hk2 & Hk3).
  unfold range. unfold bind at 1. rewrite Hrun.
  unfold bind at 1. unfold lift at 1. rewrite H1, setitem_nat by done.
  unfold bind at 1. unfold lift at 1. rewrite H2, setitem_nat by done.
  unfold bind at 1. unfold emit at 1. cbn [np_random trace].
  destruct (decide ((i + 1) mod 100 = 0)) as [Hr|Hr].
  - unfold bind, py.load, emit, ret. rewrite Hlv, Hav.
    rewrite !decide_True by (apply loss_value_is_local || apply acc_value_is_local).
    cbn [np_random trace]. eexists _, _. rewrite <- !app_assoc.
    split; [reflexivity|]. cbn [test_py.train_loss_data test_py.train_acc_data].
    rewrite !length_insert.
    rewrite stepids_app, records_app, progress_epochs_app, checkpoints_app.
    rewrite stepids_replicate, Hk1, Hk2, Hk3. rewrite app_nil_r.
    repeat split; done.
  - unfold bind, ret. cbn [np_random trace]. eexists _, _.
    rewrite <- !app_assoc.
    split; [reflexivity|]. cbn [test_py.train_loss_data test_py.train_acc_data].
    rewrite !length_insert.
    rewrite stepids_app, records_app, progress_epochs_app, checkpoints_app.
    rewrite stepids_replicate, Hk1, Hk2, Hk3. rewrite app_nil_r.
    repeat split; done.
Qed.

Lemma outer_loop chunks frames targets n s (fr : test_py.Frame)
    (wd : World Params) :
  0 < chunks -> aligned_batches chunks frames targets ->
  s + n <= length (test_py.train_loss_data fr) ->
  s + n <= length (test_py.train_acc_data fr) ->
  exists fr' added,
    foldM (seq s n) fr (epoch' chunks frames targets) wd
    = (Ok fr', {| np_random := np_random wd; trace := trace wd ++ added |}) /\
    length (test_py.train_loss_data fr') = length (test_py.train_loss_data fr) /\
    length (test_py.train_acc_data fr') = length (test_py.train_acc_data fr) /\
    stepids added = concat ((fun i => replicate chunks i) <$> seq s n) /\
    records added = seq s n /\
    progress_epochs added = filter (fun e => e mod 100 = 0) (seq (S s) n) /\
    checkpoints added = [].
Proof.
  intros Hc Hb. revert s fr wd. induction n as [|n IH]; intros s fr wd Hl Ha.
  { exists fr, []. simpl. rewrite app_nil_r. destruct wd. repeat split; done. }
  destruct (epoch_run chunks frames targets fr s wd)
    as (fr1 & added1 & Hrun1 & Hl1 & Ha1 & Hs1 & Hr1 & Hp1 & Hk1);
    [done|done|lia|lia|].
  destruct (IH (S s) fr1
              {| np_random := np_random wd; trace := trace wd ++ added1 |})
    as (fr2 & added2 & Hrun2 & Hl2 & Ha2 & Hs2 & Hr2 & Hp2 & Hk2); [lia|lia|].
  exists fr2, (added1 ++ added2). cbn [seq foldM]. unfold bind.
  rewrite Hrun1, Hrun2. cbn [np_random trace]. rewrite app_assoc.
  split; [done|]. split; [congruence|]. split; [congruence|].
  rewrite stepids_app, records_app, progress_epochs_app, checkpoints_app.
  rewrite Hs1, Hs2, Hr1, Hr2, Hp1, Hp2, Hk1, Hk2.
  repeat split; try done.
  rewrite filter_cons, Nat.add_1_r.
  by destruct (decide (S s mod 100 = 0)).
Qed.

(** X14.  In [test.py], with at least one batch per epoch and as many
    labels as rows in every batch, the training loop of [QuantumModel] runs
    to its end and returns one loss and one accuracy per epoch.  The step
    index handed to the optimizer is the epoch: every epoch passes its own
    index once per batch.  One record is stored per epoch, a progress line
    is printed after the epochs 100, 200, ..., and nothing is saved. *)
Theorem QuantumModel_training_trace chunks frames targets (weights : Params)
    (wd : World Params) :
  0 < chunks -> aligned_batches chunks frames targets ->
  exists st losses accs added,
    test_py.training qml_device qnode jax_grad adam SEED N_QUBITS N_EPOCHS LR
      chunks frames targets weights wd
    = (Ok (st, losses, accs),
       {| np_random := np_random wd; trace := trace wd ++ added |}) /\
    length losses = N_EPOCHS /\ length accs = N_EPOCHS /\
    stepids added
    = concat ((fun i => replicate chunks i) <$> seq 0 N_EPOCHS) /\
    records added = seq 0 N_EPOCHS /\
    progress_epochs added = filter (fun e => e mod 100 = 0) (seq 1 N_EPOCHS) /\
    checkpoints added = [].
Proof.
  intros Hc Hb. unfold test_py.training.
  unfold bind at 1. unfold emit at 1. unfold bind at 1. unfold emit at 1.
  unfold range. unfold bind at 1.
  match goal with
  | |- context [foldM _ ?f _ ?w] =>
      destruct (outer_loop chunks frames targets N_EPOCHS 0 f w)
        as (fr' & added & Hrun & Hl & Ha & Hs & Hr & Hp & Hk)
  end; [done|done|..].
  { cbn [test_py.train_loss_data]. rewrite length_replicate. lia. }
  { cbn [test_py.train_acc_data]. rewrite length_replicate. lia. }
  cbn [test_py.train_loss_data test_py.train_acc_data] in Hl, Ha.
  rewrite length_replicate in Hl, Ha.
  rewrite Hrun. unfold ret. cbn [np_random trace].
  eexists _, _, _, _. rewrite <- !app_assoc. split; [reflexivity|].
  split; [done|]. split; [done|].
  rewrite !stepids_app, !records_app, !progress_epochs_app, !checkpoints_app.
  rewrite Hs, Hr, Hp, Hk. repeat split; done.
Qed.

End QuantumModel_facts.

Lemma QuantumModel_training_trace_witness :
  exists st losses accs added,
    test_py.training (fun _ _ => tt) always_plus_one_layers (fun _ w => w)
      descent 0 2 3 (1 # 100) 2 [[[1; 2]; [3; 4]]; [[5; 6]; [7; 8]]]%Q
      [[1; -1]; [1; -1]]%Q (1 # 2)%Q fresh
    = (Ok (st, losses, accs),
       {| np_random := np_random fresh; trace := trace fresh ++ added |}) /\
    stepids added = [0; 0; 1; 1; 2; 2] /\ records added = [0; 1; 2].
Proof.
  destruct (QuantumModel_training_trace (fun _ _ => tt)
              always_plus_one_layers (fun _ w => w) descent 0 2 3 (1 # 100) 2
              [[[1; 2]; [3; 4]]; [[5; 6]; [7; 8]]]%Q [[1; -1]; [1; -1]]%Q
              (1 # 2)%Q fresh)
    as (st & losses & accs & added & H & _ & _ & Hs & Hr & _).
  - lia.
  - intros [|[|j]] Hj. 
    + (eexists _, _; repeat split; reflexivity).
    + (eexists _, _; repeat split; reflexivity).
    + lia.
  - exists st, losses, accs, added. split; [exact H|]. split; [exact Hs| exact Hr].
Defined.

(** ** Training and evaluation metrics agree *)

Section Agreement.

Context {Params OptState Device : Type}.
Variable qml_device : nat -> nat -> Device.
Variable qnode : Device -> nat -> nat -> list Q -> Params -> Q.
Variable jax_grad : (Params -> result num) -> Params -> Params.
Variable adam : Q -> Optimizer Params OptState.
Variable cfg : Config.

(** X15.  The loss and accuracy a training step reports are the ones the
    evaluation step computes on the same batch at the parameters of the
    incoming state, and one returns them exactly when the other does: what
    training logs is the quality of the model before the update. *)
Theorem Train_Step_reports_Test_Step stepid (st : OptState)
    (f : list (list Q)) (t : list Q) (l a : num) :
  (exists st',
     Train_Step qml_device qnode jax_grad adam cfg stepid st f t
     = Ok (l, a, st')) <->
  Test_Step qml_device qnode jax_grad cfg (get_params (optimizer adam cfg) st)
    f t = Ok (l, a).
Proof.
  unfold Train_Step, Test_Step, value_and_grad.
  destruct (Loss _ _ _ _ _ _) as [l0|e]; cbn [rbind].
  2: { split; [by intros [? ?]|done]. }
  destruct (Accuracy _ _ _ _ _ _) as [a0|e]; cbn [rbind].
  2: { split; [by intros [? ?]|done]. }
  split.
  - by intros [st' [= <- <- _]].
  - intros [= <- <-]. by eexists.
Qed.

End Agreement.

(** ** [test.py]: the sweep over the layers *)

Section Sweep.

Context {Params OptState Device : Type}.
Variable qml_device : nat -> nat -> Device.
Variable qnode : Device -> nat -> list Q -> Params -> Q.
Variable jax_grad : (Params -> result num) -> Params -> Params.
Variable adam : Q -> Optimizer Params OptState.
Variable jax_random_uniform_pi : nat -> nat * nat * nat -> Params.
Variable format_float : nat -> num -> string.
Variable ld_full :
  nat -> nat -> nat -> result (list (list Q) * list Q * list (list Q) * list Q).

(** X16.  The sweep of [test.py] over 0 to 9 layers never gets past its
    first model.  It is the run of [QuantumModel] with 0 layers followed
    by an exception: the one [QuantumModel] raised, or, when it returned,
    the [IndexError] of [test_ad[-1]], an index into the 0-dimensional
    average of the test accuracies.  No second model is trained. *)
Theorem layer_sweep_stops_at_first_model (wd : World Params) :
  test_py_rest.layer_sweep qml_device qnode jax_grad adam
    jax_random_uniform_pi format_float ld_full wd
  = (let run := test_py_rest.QuantumModel qml_device qnode jax_grad adam
                  jax_random_uniform_pi format_float ld_full
                  0 2000 2000 16 0 (1 # 1000) 1000 wd in
     (match run.1 with
      | Ok _ => Raise IndexError
      | Raise e => Raise e
      end, run.2)).
Proof.
  unfold test_py_rest.layer_sweep. cbn zeta.
  change (range 10) with (0 :: seq 1 9). cbn [foldM].
  unfold bind at 1. unfold bind at 1.
  destruct (test_py_rest.QuantumModel _ _ _ _ _ _ _ _ _ _ _ _ _ _ wd)
    as [[[[[[train_ld train_ad] test_ld] test_ad] ep]|e] wd']; [|done].
  cbn [fst snd]. unfold bind, lift.
  rewrite setitem_nat by (rewrite length_replicate; lia). done.
Qed.

End Sweep.

(** ** [test.py]: the evaluation loop *)

Lemma i_is_local : "i" ∈ test_py.QuantumModel_locals.
Proof. apply (bool_decide_unpack _). by vm_compute. Qed.

Section QuantumModel_testing.

Context {Params OptState Device : Type}.
Variable qml_device : nat -> nat -> Device.
Variable qnode : Device -> nat -> list Q -> Params -> Q.
Variable jax_grad : (Params -> result num) -> Params -> Params.
Variable adam : Q -> Optimizer Params OptState.
Variable format_float : nat -> num -> string.
Variables (SEED N_QUBITS : nat) (LR : Q).

Local Abbreviation test_step' :=
  (test_py_rest.test_step qml_device qnode jax_grad adam SEED N_QUBITS LR).
Local Abbreviation test_batch' :=
  (test_py_rest.test_batch qml_device qnode jax_grad adam SEED N_QUBITS LR).

Lemma test_step_aligned i (st : OptState) x y :
  length x = length y -> exists m, test_step' i st x y = Ok m.
Proof.
  intros Hxy. unfold test_py_rest.test_step, value_and_grad, test_py.loss_fn,
    test_py.acc_fn, test_py.circuit.
  rewrite !elementwise_aligned by (by rewrite ?length_fmap). cbn [rbind].
  by eexists.
Qed.

(** The metrics [ms] of the batches [s .. s+n-1], as [test_step] returns
    them. *)
Local Abbreviation metrics_of i st frames targets s n ms :=
  (Forall2 (fun j (m : num * num) =>
              exists x y, frames !! j = Some x /\ targets !! j = Some y /\
                          test_step' i st x y = Ok m) (seq s n) ms).

Lemma testing_loop i (st : OptState) frames targets n s
    (fr : test_py_rest.TestFrame) (wd : World Params) :
  aligned_batches (s + n) frames targets ->
  s + n <= length (test_py_rest.loss_temp fr) ->
  s + n <= length (test_py_rest.acc_temp fr) ->
  exists ms,
    metrics_of i st frames targets s n ms /\
    foldM (seq s n) fr (test_batch' (Some i) st frames targets) wd
    = (Ok {| test_py_rest.loss_temp :=
               list_inserts s ms.*1 (test_py_rest.loss_temp fr);
             test_py_rest.acc_temp :=
               list_inserts s ms.*2 (test_py_rest.acc_temp fr);
             test_py_rest.loss_value :=
               from_option (fun m => Some m.1) (test_py_rest.loss_value fr)
                 (last ms);
             test_py_rest.acc_value :=
               from_option (fun m => Some m.2) (test_py_rest.acc_value fr)
                 (last ms) |}, wd).
Proof.
  revert s fr. induction n as [|n IH]; intros s fr Hb Hl Ha.
  { exists []. split; [constructor|]. by destruct fr. }
  destruct (Hb s) as (x & y & Hx & Hy & Hxy); [lia|].
  destruct (test_step_aligned i st x y Hxy) as [m Hm].
  match type of Hl with
  | _ <= length ?lt =>
      match type of Ha with
      | _ <= length ?at_ =>
          destruct (IH (S s)
            {| test_py_rest.loss_temp := <[s:=m.1]> lt;
               test_py_rest.acc_temp := <[s:=m.2]> at_;
               test_py_rest.loss_value := Some m.1;
               test_py_rest.acc_value := Some m.2 |})
            as (ms & Hms & Hrun)
      end
  end.
  { intros j Hj. apply Hb. lia. }
  { cbn [test_py_rest.loss_temp]. rewrite length_insert. lia. }
  { cbn [test_py_rest.acc_temp]. rewrite length_insert. lia. }
  exists (m :: ms). split.
  { cbn [seq]. constructor; [by exists x, y|done]. }
  cbn [seq foldM]. unfold bind at 1. unfold test_py_rest.test_batch at 1.
  unfold bind, lift, py.load, ret.
  rewrite decide_True by apply i_is_local.
  rewrite (getitem_nat _ s x Hx), (getitem_nat _ s y Hy), Hm.
  rewrite !setitem_nat by lia.
  unfold bind in Hrun. rewrite Hrun.
  cbn [test_py_rest.loss_temp test_py_rest.acc_temp test_py_rest.loss_value
       test_py_rest.acc_value fmap list_fmap list_inserts].
  rewrite !list_insert_inserts_lt by lia.
  destruct ms as [|m' ms']; [reflexivity|].
  change (last (m :: m' :: ms')) with (last (m' :: ms')).
  destruct (last (m' :: ms')) eqn:E; [reflexivity|].
  by apply last_None in E.
Qed.

(** X17.  The evaluation part of [QuantumModel], run after at least one
    epoch on at least one batch, with as many labels as rows in every
    batch, returns the averages of the losses and of the accuracies of all
    its batches, but the summary line it prints shows the loss and the
    accuracy of the last batch alone. *)
Theorem QuantumModel_testing_prints_last_batch i (st : OptState) chunks
    frames targets (wd : World Params) :
  0 < chunks -> aligned_batches chunks frames targets ->
  exists ms m_last,
    metrics_of i st frames targets 0 chunks ms /\
    last ms = Some m_last /\
    test_py_rest.testing qml_device qnode jax_grad adam format_float SEED
      N_QUBITS LR (Some i) st chunks frames targets wd
    = (Ok (test_py.average ms.*1, test_py.average ms.*2),
       {| np_random := np_random wd;
          trace := trace wd ++
            [Printed "Testing Model....";
             Printed (tab +:+ "Loss" +:+ tab +:+ "Accuracy");
             Printed (summary_line format_float m_last.1 m_last.2)] |}).
Proof.
  intros Hc Hb. unfold test_py_rest.testing.
  unfold bind at 1. unfold emit at 1. unfold bind at 1. unfold emit at 1.
  unfold range. unfold bind at 1.
  match goal with
  | |- context [foldM _ ?f _ ?w] =>
      destruct (testing_loop i st frames targets chunks 0 f w)
        as (ms & Hms & Hrun)
  end; [done|cbn; rewrite length_replicate; lia..|].
  assert (Hlen : length ms = chunks).
  { apply Forall2_length in Hms. by rewrite length_seq in Hms. }
  destruct (last ms) as [m_last|] eqn:Hlast.
  2: { apply last_None in Hlast. subst ms. simpl in Hlen. lia. }
  exists ms, m_last. split; [done|]. split; [done|].
  rewrite Hrun, ?Hlast.
  cbn [test_py_rest.loss_temp test_py_rest.acc_temp test_py_rest.loss_value
       test_py_rest.acc_value from_option].
  rewrite !list_inserts_full by (by rewrite length_fmap, length_replicate).
  unfold bind, py.load, emit, ret.
  rewrite !decide_True by (apply loss_value_is_local || apply acc_value_is_local).
  cbn [np_random trace]. by rewrite <- !app_assoc.
Qed.

End QuantumModel_testing.

Lemma QuantumModel_testing_prints_last_batch_witness :
  exists ms m_last,
    last ms = Some m_last /\
    (test_py_rest.testing (fun _ _ => tt) always_plus_one_layers
       (fun _ w => w) descent (fun _ _ => EmptyString) 0 2 (1 # 100) (Some 0)
       (1 # 2)%Q 2 [[[1; 2]; [3; 4]]; [[5; 6]; [7; 8]]]%Q
       [[1; 1]; [-1; -1]]%Q fresh).1
    = Ok (test_py.average ms.*1, test_py.average ms.*2).
Proof.
  destruct (QuantumModel_testing_prints_last_batch (fun _ _ => tt)
              always_plus_one_layers (fun _ w => w) descent
              (fun _ _ => EmptyString) 0 2 (1 # 100) 0 (1 # 2)%Q 2
              [[[1; 2]; [3; 4]]; [[5; 6]; [7; 8]]]%Q [[1; 1]; [-1; -1]]%Q
              fresh) as (ms & m_last & _ & Hlast & H).
  - lia.
  - intros [|[|j]] Hj.
    + eexists _, _; repeat split; reflexivity.
    + eexists _, _; repeat split; reflexivity.
    + lia.
  - exists ms, m_last. split; [exact Hlast|]. rewrite H. reflexivity.
Defined.
